(** * Pose shadowing and calibration of the OpenGloves driver

    A shallow embedding of [src/ControllerPose.cpp]: the per-frame pose
    computation [UpdatePose], the resolution of the shadowed controller's
    device index, and the calibration entry points, together with the
    properties the specification states about them. *)

From Stdlib Require Import ZArith NArith QArith Bool Ascii String Lia.
From stdpp Require Import base option list.

Set Default Proof Using "Type".
Local Open Scope N_scope.

(** ** Scalars

    The pose code computes on C [float] and [double] values with [+] and [*]
    only.  The development is generic in the carrier and in the
    interpretation of these operations: nothing below assumes an algebraic
    law of them, so every theorem holds for IEEE arithmetic as well as for
    exact arithmetic.  Widening a [float] to a [double] preserves the value and
    is the identity of the model. *)
Class FloatOps (F : Type) : Type := {
  f_zero : F;
  f_one : F;
  f_add : F -> F -> F;
  f_sub : F -> F -> F;
  f_mul : F -> F -> F
}.

Declare Scope float_scope.
Delimit Scope float_scope with flt.
Infix "+" := f_add : float_scope.
Infix "-" := f_sub : float_scope.
Infix "*" := f_mul : float_scope.

(** ** Unsigned 32-bit device indices *)

(** Storing a C [int] into a [uint32_t] wraps modulo [2^32]. *)
Definition to_uint32 (z : Z) : N := Z.to_N (z mod 2 ^ 32).

Module vr.

(** [vr::TrackedDeviceIndex_t] constants of openvr_driver.h. *)
Definition k_unMaxTrackedDeviceCount : N := 64.
Definition k_unTrackedDeviceIndexInvalid : N := 0xFFFFFFFF.

(** [vr::ETrackedControllerRole]. *)
Inductive ETrackedControllerRole : Set :=
| TrackedControllerRole_Invalid
| TrackedControllerRole_LeftHand
| TrackedControllerRole_RightHand
| TrackedControllerRole_OptOut
| TrackedControllerRole_Treadmill
| TrackedControllerRole_Stylus.

(** [vr::ETrackingResult], by the integer value of each enumerator: the
  aggregate initialiser [{0}] of a [DriverPose_t] stores 0, which no
  enumerator names. *)
Definition ETrackingResult : Set := Z.
Definition TrackingResult_Uninitialized : ETrackingResult := 1%Z.
Definition TrackingResult_Calibrating_InProgress : ETrackingResult := 100%Z.
Definition TrackingResult_Calibrating_OutOfRange : ETrackingResult := 101%Z.
Definition TrackingResult_Running_OK : ETrackingResult := 200%Z.
Definition TrackingResult_Running_OutOfRange : ETrackingResult := 201%Z.
Definition TrackingResult_Fallback_RotationOnly : ETrackingResult := 300%Z.

Section Types.
Context {F : Type}.

(** [struct HmdVector3_t { float v[3]; }] *)
Record HmdVector3_t : Type := mkHmdVector3 { v_0 : F; v_1 : F; v_2 : F }.

(** [double[3]] members of [DriverPose_t]. *)
Record double3 : Type := mkDouble3 { d_0 : F; d_1 : F; d_2 : F }.

(** [struct HmdQuaternion_t { double w, x, y, z; }] *)
Record HmdQuaternion_t : Type := mkHmdQuaternion { w : F; x : F; y : F; z : F }.

(** [struct HmdMatrix33_t { float m[3][3]; }], row by row. *)
Record HmdMatrix33_t : Type := mkHmdMatrix33 {
  r00 : F; r01 : F; r02 : F;
  r10 : F; r11 : F; r12 : F;
  r20 : F; r21 : F; r22 : F
}.

(** [struct HmdMatrix34_t { float m[3][4]; }], row by row; the fourth
    column is the translation. *)
Record HmdMatrix34_t : Type := mkHmdMatrix34 {
  m00 : F; m01 : F; m02 : F; m03 : F;
  m10 : F; m11 : F; m12 : F; m13 : F;
  m20 : F; m21 : F; m22 : F; m23 : F
}.

(** [struct TrackedDevicePose_t]: the raw pose the host reports for one
    device. *)
Record TrackedDevicePose_t : Type := mkTrackedDevicePose {
  mDeviceToAbsoluteTracking : HmdMatrix34_t;
  vVelocity : HmdVector3_t;
  vAngularVelocity : HmdVector3_t;
  eTrackingResult : ETrackingResult;
  bPoseIsValid : bool;
  bDeviceIsConnected : bool
}.

(** [struct DriverPose_t]: the pose a driver reports to the host. *)
Record DriverPose_t : Type := mkDriverPose {
  poseTimeOffset : F;
  qWorldFromDriverRotation : HmdQuaternion_t;
  vecWorldFromDriverTranslation : double3;
  qDriverFromHeadRotation : HmdQuaternion_t;
  vecDriverFromHeadTranslation : double3;
  vecPosition : double3;
  vecVelocity : double3;
  vecAcceleration : double3;
  qRotation : HmdQuaternion_t;
  vecAngularVelocity : double3;
  vecAngularAcceleration : double3;
  result : ETrackingResult;
  poseIsValid : bool;
  willDriftInYaw : bool;
  shouldApplyHeadModel : bool;
  deviceIsConnected : bool
}.

(** Stores into one member of a [DriverPose_t], the other members kept. *)
Definition upd_poseTimeOffset (f : F -> F) (p : DriverPose_t) : DriverPose_t :=
  let '(mkDriverPose t0 t1 t2 t3 t4 t5 t6 t7 t8 t9 t10 t11 t12 t13 t14 t15) := p in
  mkDriverPose (f t0) t1 t2 t3 t4 t5 t6 t7 t8 t9 t10 t11 t12 t13 t14 t15.
Definition upd_qWorldFromDriverRotation (f : HmdQuaternion_t -> HmdQuaternion_t) (p : DriverPose_t) : DriverPose_t :=
  let '(mkDriverPose t0 t1 t2 t3 t4 t5 t6 t7 t8 t9 t10 t11 t12 t13 t14 t15) := p in
  mkDriverPose t0 (f t1) t2 t3 t4 t5 t6 t7 t8 t9 t10 t11 t12 t13 t14 t15.
Definition upd_qDriverFromHeadRotation (f : HmdQuaternion_t -> HmdQuaternion_t) (p : DriverPose_t) : DriverPose_t :=
  let '(mkDriverPose t0 t1 t2 t3 t4 t5 t6 t7 t8 t9 t10 t11 t12 t13 t14 t15) := p in
  mkDriverPose t0 t1 t2 (f t3) t4 t5 t6 t7 t8 t9 t10 t11 t12 t13 t14 t15.
Definition upd_vecPosition (f : double3 -> double3) (p : DriverPose_t) : DriverPose_t :=
  let '(mkDriverPose t0 t1 t2 t3 t4 t5 t6 t7 t8 t9 t10 t11 t12 t13 t14 t15) := p in
  mkDriverPose t0 t1 t2 t3 t4 (f t5) t6 t7 t8 t9 t10 t11 t12 t13 t14 t15.
Definition upd_vecVelocity (f : double3 -> double3) (p : DriverPose_t) : DriverPose_t :=
  let '(mkDriverPose t0 t1 t2 t3 t4 t5 t6 t7 t8 t9 t10 t11 t12 t13 t14 t15) := p in
  mkDriverPose t0 t1 t2 t3 t4 t5 (f t6) t7 t8 t9 t10 t11 t12 t13 t14 t15.
Definition upd_qRotation (f : HmdQuaternion_t -> HmdQuaternion_t) (p : DriverPose_t) : DriverPose_t :=
  let '(mkDriverPose t0 t1 t2 t3 t4 t5 t6 t7 t8 t9 t10 t11 t12 t13 t14 t15) := p in
  mkDriverPose t0 t1 t2 t3 t4 t5 t6 t7 (f t8) t9 t10 t11 t12 t13 t14 t15.
Definition upd_vecAngularVelocity (f : double3 -> double3) (p : DriverPose_t) : DriverPose_t :=
  let '(mkDriverPose t0 t1 t2 t3 t4 t5 t6 t7 t8 t9 t10 t11 t12 t13 t14 t15) := p in
  mkDriverPose t0 t1 t2 t3 t4 t5 t6 t7 t8 (f t9) t10 t11 t12 t13 t14 t15.
Definition upd_result (f : ETrackingResult -> ETrackingResult) (p : DriverPose_t) : DriverPose_t :=
  let '(mkDriverPose t0 t1 t2 t3 t4 t5 t6 t7 t8 t9 t10 t11 t12 t13 t14 t15) := p in
  mkDriverPose t0 t1 t2 t3 t4 t5 t6 t7 t8 t9 t10 (f t11) t12 t13 t14 t15.
Definition upd_poseIsValid (f : bool -> bool) (p : DriverPose_t) : DriverPose_t :=
  let '(mkDriverPose t0 t1 t2 t3 t4 t5 t6 t7 t8 t9 t10 t11 t12 t13 t14 t15) := p in
  mkDriverPose t0 t1 t2 t3 t4 t5 t6 t7 t8 t9 t10 t11 (f t12) t13 t14 t15.
Definition upd_deviceIsConnected (f : bool -> bool) (p : DriverPose_t) : DriverPose_t :=
  let '(mkDriverPose t0 t1 t2 t3 t4 t5 t6 t7 t8 t9 t10 t11 t12 t13 t14 t15) := p in
  mkDriverPose t0 t1 t2 t3 t4 t5 t6 t7 t8 t9 t10 t11 t12 t13 t14 (f t15).

(** Stores into one element of a [double[3]] and into [w] of a quaternion. *)
Definition set_d_0 (a : F) (v : double3) : double3 := mkDouble3 a (d_1 v) (d_2 v).
Definition set_d_1 (a : F) (v : double3) : double3 := mkDouble3 (d_0 v) a (d_2 v).
Definition set_d_2 (a : F) (v : double3) : double3 := mkDouble3 (d_0 v) (d_1 v) a.
Definition set_w (a : F) (q : HmdQuaternion_t) : HmdQuaternion_t :=
  mkHmdQuaternion a (x q) (y q) (z q).

(** [vr::VRServerDriverHost()]: the host's device-pose database at the
    moment of a call, one raw pose per device index. *)
Record IVRServerDriverHost : Type := mkHost {
  raw_pose : nat -> TrackedDevicePose_t
}.

(** [GetRawTrackedDevicePoses(0, array, count)] fills [count] entries of
    the caller's array, entry [i] with the raw pose of device [i]. *)
Definition GetRawTrackedDevicePoses (host : IVRServerDriverHost)
    (unTrackedDevicePoseArrayCount : N) : list TrackedDevicePose_t :=
  map (raw_pose host) (seq 0 (N.to_nat unTrackedDevicePoseArrayCount)).
End Types.

Arguments HmdVector3_t : clear implicits.
Arguments double3 : clear implicits.
Arguments HmdQuaternion_t : clear implicits.
Arguments HmdMatrix33_t : clear implicits.
Arguments HmdMatrix34_t : clear implicits.
Arguments TrackedDevicePose_t : clear implicits.
Arguments DriverPose_t : clear implicits.
Arguments IVRServerDriverHost : clear implicits.

#[global] Instance ETrackedControllerRole_eq_dec : EqDecision ETrackedControllerRole.
Proof. solve_decision. Defined.

End vr.


(** ** Outcomes of a method call

    A method either returns a value and leaves the object in a new state, or
    reads an array outside its bounds, which C++ leaves undefined. *)
Inductive Outcome (A : Type) : Type :=
| Ok (a : A)
| OutOfBounds.
Arguments Ok {A} a.
Arguments OutOfBounds {A}.

(** A method of an object with state [S] returning an [A]. *)
Definition Method (S A : Type) : Type := S -> Outcome (A * S).

#[global] Instance Method_ret {S} : MRet (Method S) :=
  fun A a s => Ok (a, s).
#[global] Instance Method_bind {S} : MBind (Method S) :=
  fun A B k m s =>
    match m s with
    | Ok (a, s') => k a s'
    | OutOfBounds => OutOfBounds
    end.

(** Read a member, and replace the object's state. *)
Definition member {S A} (f : S -> A) : Method S A := fun s => Ok (f s, s).
Definition assign {S} (f : S -> S) : Method S unit := fun s => Ok (tt, f s).
Definition undefined {S A} : Method S A := fun _ => OutOfBounds.

(** The value a call returned, if it returned. *)
Definition returned {S A} (o : Outcome (A * S)) : Outcome A :=
  match o with
  | Ok (a, _) => Ok a
  | OutOfBounds => OutOfBounds
  end.

(** ** Quaternion.h *)
Section Quaternion.
Context {F : Type} `{FloatOps F}.
Local Open Scope float_scope.

(** Modelled from the spec: Quaternion.cpp is not among the sources.
    "Extract rotation submatrix from a pose matrix (drop translation
    column)." *)
Definition GetRotationMatrix (matrix : vr.HmdMatrix34_t F) : vr.HmdMatrix33_t F :=
  {| vr.r00 := vr.m00 matrix; vr.r01 := vr.m01 matrix; vr.r02 := vr.m02 matrix;
     vr.r10 := vr.m10 matrix; vr.r11 := vr.m11 matrix; vr.r12 := vr.m12 matrix;
     vr.r20 := vr.m20 matrix; vr.r21 := vr.m21 matrix; vr.r22 := vr.m22 matrix |}.

(** Modelled from the spec: Quaternion.cpp is not among the sources.
    "Rotate a 3D vector by a rotation matrix (standard matrix-vector
    product)." *)
Definition MultiplyMatrix (matrix : vr.HmdMatrix33_t F) (vector : vr.HmdVector3_t F)
  : vr.HmdVector3_t F :=
  {| vr.v_0 := vr.r00 matrix * vr.v_0 vector + vr.r01 matrix * vr.v_1 vector
               + vr.r02 matrix * vr.v_2 vector;
     vr.v_1 := vr.r10 matrix * vr.v_0 vector + vr.r11 matrix * vr.v_1 vector
               + vr.r12 matrix * vr.v_2 vector;
     vr.v_2 := vr.r20 matrix * vr.v_0 vector + vr.r21 matrix * vr.v_1 vector
               + vr.r22 matrix * vr.v_2 vector |}.

(** Modelled from the spec: Quaternion.cpp is not among the sources.
    "Add a world-space offset vector to a pose matrix's translation to
    produce a new position." *)
Definition CombinePosition (matrix : vr.HmdMatrix34_t F) (vec : vr.HmdVector3_t F)
  : vr.HmdVector3_t F :=
  {| vr.v_0 := vr.m03 matrix + vr.v_0 vec;
     vr.v_1 := vr.m13 matrix + vr.v_1 vec;
     vr.v_2 := vr.m23 matrix + vr.v_2 vec |}.

(** Modelled from the spec: Quaternion.cpp is not among the sources.
    "Compose two unit quaternions (Hamilton product) to combine a base
    orientation with a configured offset; composition order is
    base-orientation-then-local-offset": the product [q * r] with the base
    orientation [q] on the left. *)
Definition MultiplyQuaternion (q r : vr.HmdQuaternion_t F) : vr.HmdQuaternion_t F :=
  {| vr.w := vr.w q * vr.w r - vr.x q * vr.x r - vr.y q * vr.y r - vr.z q * vr.z r;
     vr.x := vr.w q * vr.x r + vr.x q * vr.w r + vr.y q * vr.z r - vr.z q * vr.y r;
     vr.y := vr.w q * vr.y r - vr.x q * vr.z r + vr.y q * vr.w r + vr.z q * vr.x r;
     vr.z := vr.w q * vr.z r + vr.x q * vr.y r - vr.y q * vr.x r + vr.z q * vr.w r |}.

End Quaternion.

(** [GetRotation] of Quaternion.h turns the rotation block of a pose matrix
    into a quaternion.  Neither its source nor a description of it is
    available, so it is an interface the development is generic in. *)
Class RotationOfMatrix (F : Type) : Type := {
  GetRotation : vr.HmdMatrix34_t F -> vr.HmdQuaternion_t F
}.

(** ** DeviceConfiguration.h *)

(** [struct VRPoseConfiguration_t], with the members in the order
    [DeviceProvider::GetDeviceConfiguration] passes them to its constructor.
    [controllerIdOverride] is a C [int]. *)
Record VRPoseConfiguration_t {F : Type} : Type := mkVRPoseConfiguration {
  offsetVector : vr.HmdVector3_t F;
  angleOffsetQuaternion : vr.HmdQuaternion_t F;
  poseOffset : F;
  controllerOverrideEnabled : bool;
  controllerIdOverride : Z
}.
Arguments VRPoseConfiguration_t : clear implicits.

(** The calibration derivation: from the controller's raw pose, the prior
    configuration and the handedness flag to the new configuration.  The
    specification fixes this contract and leaves the geometry open, so it is
    an interface the development is generic in. *)
Class CalibrationDerivation (F : Type) : Type := {
  DeriveConfiguration :
    vr.TrackedDevicePose_t F -> VRPoseConfiguration_t F -> bool -> VRPoseConfiguration_t F
}.

(** The aggregate initialiser [{0}]: every member zero. *)
Definition DriverPose_zero {F : Type} `{FloatOps F} : vr.DriverPose_t F :=
  let zero3 := vr.mkDouble3 f_zero f_zero f_zero in
  let zeroq := vr.mkHmdQuaternion f_zero f_zero f_zero f_zero in
  {| vr.poseTimeOffset := f_zero;
     vr.qWorldFromDriverRotation := zeroq;
     vr.vecWorldFromDriverTranslation := zero3;
     vr.qDriverFromHeadRotation := zeroq;
     vr.vecDriverFromHeadTranslation := zero3;
     vr.vecPosition := zero3;
     vr.vecVelocity := zero3;
     vr.vecAcceleration := zero3;
     vr.qRotation := zeroq;
     vr.vecAngularVelocity := zero3;
     vr.vecAngularAcceleration := zero3;
     vr.result := 0%Z;
     vr.poseIsValid := false;
     vr.willDriftInYaw := false;
     vr.shouldApplyHeadModel := false;
     vr.deviceIsConnected := false |}.

(** ** Calibration.h *)
Module Calibration.
Section Calibration.
Context {F : Type} `{FloatOps F} `{CalibrationDerivation F}.

(** Modelled from the spec: Calibration.h and Calibration.cpp are not among
    the sources.  "States: Idle, Calibrating"; the session "holds a frozen
    maintain pose snapshot while open".  The spec does not say which pose an
    idle object holds: the model holds the last one stored, the zero pose at
    first, and [ControllerPose] never reads it while idle. *)
Record t : Type := mk {
  m_isCalibrating : bool;
  m_maintainPose : vr.DriverPose_t F
}.

(** Modelled from the spec: "Initial state: Idle." *)
Definition new : t :=
  {| m_isCalibrating := false; m_maintainPose := DriverPose_zero |}.

(** Modelled from the spec: "[isCalibrating] reflects current state at all
    times". *)
Definition isCalibrating : Method t bool := member m_isCalibrating.

(** Modelled from the spec: the "frozen maintain pose" of the session. *)
Definition GetMaintainPose : Method t (vr.DriverPose_t F) := member m_maintainPose.

(** Modelled from the spec: "[StartCalibration] (Idle -> Calibrating): ...
    stores it as the session's frozen maintain pose". *)
Definition StartCalibration (maintainPose : vr.DriverPose_t F) : Method t unit :=
  assign (fun _ => {| m_isCalibrating := true; m_maintainPose := maintainPose |}).

(** Modelled from the spec: "[FinishCalibration] (Calibrating -> Idle,
    success path) ... the real controller's current raw pose, the existing
    configuration, and the handedness flag are passed to a derivation step
    that produces a new PoseConfiguration". *)
Definition FinishCalibration (controllerPose : vr.TrackedDevicePose_t F)
    (poseConfiguration : VRPoseConfiguration_t F) (isRightHand : bool)
  : Method t (VRPoseConfiguration_t F) :=
  _ ← assign (fun c => {| m_isCalibrating := false; m_maintainPose := m_maintainPose c |});
  mret (DeriveConfiguration controllerPose poseConfiguration isRightHand).

(** Modelled from the spec: "[CancelCalibration] (Calibrating -> Idle, abort
    path): discards the session". *)
Definition CancelCalibration : Method t unit :=
  assign (fun c => {| m_isCalibrating := false; m_maintainPose := m_maintainPose c |}).

End Calibration.
Arguments t : clear implicits.
End Calibration.

(** ** ControllerDiscovery.h *)

(** The message of the discovery pipe; [controllerId] is a C integer. *)
Record ControllerPipeData : Type := mkControllerPipeData {
  controllerId : Z
}.

(** Modelled from the spec: ControllerDiscovery.h is not among the sources.
    A started pipe listens for "a requested role (left/right hand)" and hands
    each report to the callback it was started with. *)
Record ControllerDiscoveryPipe : Type := mkControllerDiscoveryPipe {
  listening_for : vr.ETrackedControllerRole
}.

(** ** ControllerPose.cpp *)
Module ControllerPose.
Section ControllerPose.
Context {F : Type} `{FloatOps F} `{RotationOfMatrix F} `{CalibrationDerivation F}.

(** The members of [class ControllerPose].  The two [unique_ptr] members are
    the object they own, [None] for a null [m_controllerDiscoverer].
    [m_shadowControllerId] is compared with the [uint32_t] constant
    [k_unTrackedDeviceIndexInvalid] and indexes an array, so it is an
    unsigned 32-bit value; the [int] of the configuration and the integer of
    a report are converted when they are stored.  Calls to the driver log
    write no member and are left out. *)
Record t : Type := mk {
  m_shadowControllerId : N;
  m_shadowDeviceOfRole : vr.ETrackedControllerRole;
  m_thisDeviceManufacturer : string;
  m_poseConfiguration : VRPoseConfiguration_t F;
  m_controllerDiscoverer : option ControllerDiscoveryPipe;
  m_calibration : Calibration.t F
}.

Definition set_shadowControllerId (id : N) (this : t) : t :=
  mk id (m_shadowDeviceOfRole this) (m_thisDeviceManufacturer this)
     (m_poseConfiguration this) (m_controllerDiscoverer this) (m_calibration this).
Definition set_poseConfiguration (c : VRPoseConfiguration_t F) (this : t) : t :=
  mk (m_shadowControllerId this) (m_shadowDeviceOfRole this) (m_thisDeviceManufacturer this)
     c (m_controllerDiscoverer this) (m_calibration this).
Definition set_controllerDiscoverer (d : option ControllerDiscoveryPipe) (this : t) : t :=
  mk (m_shadowControllerId this) (m_shadowDeviceOfRole this) (m_thisDeviceManufacturer this)
     (m_poseConfiguration this) d (m_calibration this).
Definition set_calibration (c : Calibration.t F) (this : t) : t :=
  mk (m_shadowControllerId this) (m_shadowDeviceOfRole this) (m_thisDeviceManufacturer this)
     (m_poseConfiguration this) (m_controllerDiscoverer this) c.

(** [m_calibration->method(...)]: the call runs on the owned object. *)
Definition on_calibration {A} (m : Method (Calibration.t F) A) : Method t A :=
  fun this =>
    match m (m_calibration this) with
    | Ok (a, c) => Ok (a, set_calibration c this)
    | OutOfBounds => OutOfBounds
    end.

(** The callback the constructor hands to the discovery pipe (lines 22-25). *)
Definition OnControllerDiscovered (data : ControllerPipeData) : Method t unit :=
  assign (set_shadowControllerId (to_uint32 (controllerId data))).

(** The constructor (lines 9-29).  Modelled from the spec: the default
    member initialiser of [m_shadowControllerId] is in ControllerPose.h,
    which is not among the sources; the resolved index is "initialized to an
    invalid sentinel". *)
Definition new (shadowDeviceOfRole : vr.ETrackedControllerRole)
    (thisDeviceManufacturer : string) (poseConfiguration : VRPoseConfiguration_t F) : t :=
  let this :=
    {| m_shadowControllerId := vr.k_unTrackedDeviceIndexInvalid;
       m_shadowDeviceOfRole := shadowDeviceOfRole;
       m_thisDeviceManufacturer := thisDeviceManufacturer;
       m_poseConfiguration := poseConfiguration;
       m_controllerDiscoverer := None;
       m_calibration := Calibration.new |} in
  let this :=
    if controllerOverrideEnabled (m_poseConfiguration this) then
      set_shadowControllerId
        (to_uint32 (controllerIdOverride (m_poseConfiguration this))) this
    else
      set_controllerDiscoverer
        (Some (mkControllerDiscoveryPipe (m_shadowDeviceOfRole this))) this in
  set_calibration Calibration.new this.

(** [GetControllerPose] (lines 31-36): the local array has
    [k_unMaxTrackedDeviceCount] entries and is indexed without a check. *)
Definition GetControllerPose (host : vr.IVRServerDriverHost F)
  : Method t (vr.TrackedDevicePose_t F) :=
  let trackedDevicePoses :=
    vr.GetRawTrackedDevicePoses host vr.k_unMaxTrackedDeviceCount in
  id ← member m_shadowControllerId;
  match trackedDevicePoses !! N.to_nat id with
  | Some pose => mret pose
  | None => undefined
  end.

(** [UpdatePose] (lines 38-100). *)
Definition UpdatePose (host : vr.IVRServerDriverHost F) : Method t (vr.DriverPose_t F) :=
  calibrating ← on_calibration Calibration.isCalibrating;
  if calibrating : bool then on_calibration Calibration.GetMaintainPose
  else
    let newPose := DriverPose_zero in
    let newPose := vr.upd_qWorldFromDriverRotation (vr.set_w f_one) newPose in
    let newPose := vr.upd_qDriverFromHeadRotation (vr.set_w f_one) newPose in
    id ← member m_shadowControllerId;
    if decide (id ≠ vr.k_unTrackedDeviceIndexInvalid) then
      controllerPose ← GetControllerPose host;
      if vr.bPoseIsValid controllerPose then
        m_poseConfiguration ← member m_poseConfiguration;
        let controllerMatrix := vr.mDeviceToAbsoluteTracking controllerPose in
        let controllerRotationMatrix := GetRotationMatrix controllerMatrix in
        let vectorOffset :=
          MultiplyMatrix controllerRotationMatrix (offsetVector m_poseConfiguration) in
        let newControllerPosition := CombinePosition controllerMatrix vectorOffset in
        let newPose := vr.upd_vecPosition (vr.set_d_0 (vr.v_0 newControllerPosition)) newPose in
        let newPose := vr.upd_vecPosition (vr.set_d_1 (vr.v_1 newControllerPosition)) newPose in
        let newPose := vr.upd_vecPosition (vr.set_d_2 (vr.v_2 newControllerPosition)) newPose in
        let newPose :=
          vr.upd_qRotation
            (fun _ => MultiplyQuaternion (GetRotation controllerMatrix)
                        (angleOffsetQuaternion m_poseConfiguration)) newPose in
        let newPose :=
          vr.upd_vecAngularVelocity
            (vr.set_d_0 (vr.v_0 (vr.vAngularVelocity controllerPose))) newPose in
        let newPose :=
          vr.upd_vecAngularVelocity
            (vr.set_d_1 (vr.v_1 (vr.vAngularVelocity controllerPose))) newPose in
        let newPose :=
          vr.upd_vecAngularVelocity
            (vr.set_d_2 (vr.v_2 (vr.vAngularVelocity controllerPose))) newPose in
        let newPose := vr.upd_vecVelocity (vr.set_d_0 (vr.v_0 (vr.vVelocity controllerPose))) newPose in
        let newPose := vr.upd_vecVelocity (vr.set_d_1 (vr.v_1 (vr.vVelocity controllerPose))) newPose in
        let newPose := vr.upd_vecVelocity (vr.set_d_2 (vr.v_2 (vr.vVelocity controllerPose))) newPose in
        let newPose := vr.upd_poseIsValid (fun _ => true) newPose in
        let newPose := vr.upd_deviceIsConnected (fun _ => true) newPose in
        let newPose := vr.upd_result (fun _ => vr.TrackingResult_Running_OK) newPose in
        let newPose := vr.upd_poseTimeOffset (fun _ => poseOffset m_poseConfiguration) newPose in
        mret newPose
      else
        let newPose := vr.upd_poseIsValid (fun _ => false) newPose in
        let newPose := vr.upd_deviceIsConnected (fun _ => true) newPose in
        let newPose := vr.upd_result (fun _ => vr.TrackingResult_Uninitialized) newPose in
        mret newPose
    else
      let newPose := vr.upd_result (fun _ => vr.TrackingResult_Uninitialized) newPose in
      let newPose := vr.upd_deviceIsConnected (fun _ => false) newPose in
      mret newPose.

(** [StartCalibration] (lines 102-104). *)
Definition StartCalibration (host : vr.IVRServerDriverHost F) : Method t unit :=
  pose ← UpdatePose host;
  on_calibration (Calibration.StartCalibration pose).

(** [CancelCalibration] (line 115). *)
Definition CancelCalibration : Method t unit :=
  on_calibration Calibration.CancelCalibration.

(** [isCalibrating] (lines 117-119). *)
Definition isCalibrating : Method t bool :=
  on_calibration Calibration.isCalibrating.

(** [isRightHand] (lines 121-123). *)
Definition isRightHand : Method t bool :=
  role ← member m_shadowDeviceOfRole;
  mret (bool_decide (role = vr.TrackedControllerRole_RightHand)).

(** [FinishCalibration] (lines 106-113).  The arguments of the call are
    evaluated before [Calibration::FinishCalibration] runs. *)
Definition FinishCalibration (host : vr.IVRServerDriverHost F) : Method t unit :=
  id ← member m_shadowControllerId;
  if decide (id = vr.k_unTrackedDeviceIndexInvalid) then
    CancelCalibration
  else
    controllerPose ← GetControllerPose host;
    poseConfiguration ← member m_poseConfiguration;
    rightHand ← isRightHand;
    newConfiguration ←
      on_calibration (Calibration.FinishCalibration controllerPose poseConfiguration rightHand);
    assign (set_poseConfiguration newConfiguration).

End ControllerPose.
Arguments t : clear implicits.
End ControllerPose.

(** ** The lifetime of a device

    After construction the object is driven from outside: the host calls
    its methods, each time against the raw poses of that moment, and the
    discovery pipe reports controller indices in between.  A report is
    delivered between two calls here; a report that lands during a call is
    modelled further below, with the methods that read the shadow index
    twice. *)
Section Lifetime.
Context {F : Type} `{FloatOps F} `{RotationOfMatrix F} `{CalibrationDerivation F}.

Inductive Call : Type :=
| CallUpdatePose
| CallStartCalibration
| CallFinishCalibration
| CallCancelCalibration
| CallIsCalibrating.

Inductive Event : Type :=
| HostCall (host : vr.IVRServerDriverHost F) (c : Call)
| DiscoveryReport (data : ControllerPipeData).

Inductive Return : Type :=
| RetPose (pose : vr.DriverPose_t F)
| RetBool (b : bool)
| RetVoid.

(** Modelled from the spec: the discovery pipe delivers a report by running
    the callback it was started with; an object that started no pipe has no
    channel a report could arrive on. *)
Definition Deliver (data : ControllerPipeData) : Method (ControllerPose.t F) unit :=
  fun this =>
    match ControllerPose.m_controllerDiscoverer this with
    | Some _ => ControllerPose.OnControllerDiscovered data this
    | None => Ok (tt, this)
    end.

Definition call (host : vr.IVRServerDriverHost F) (c : Call)
  : Method (ControllerPose.t F) Return :=
  match c with
  | CallUpdatePose => pose ← ControllerPose.UpdatePose host; mret (RetPose pose)
  | CallStartCalibration => _ ← ControllerPose.StartCalibration host; mret RetVoid
  | CallFinishCalibration => _ ← ControllerPose.FinishCalibration host; mret RetVoid
  | CallCancelCalibration => _ ← ControllerPose.CancelCalibration; mret RetVoid
  | CallIsCalibrating => b ← ControllerPose.isCalibrating; mret (RetBool b)
  end.

Definition step (ev : Event) : Method (ControllerPose.t F) Return :=
  match ev with
  | HostCall host c => call host c
  | DiscoveryReport data => _ ← Deliver data; mret RetVoid
  end.

(** Running a list of events in order, collecting what each returned. *)
Fixpoint run (evs : list Event) : Method (ControllerPose.t F) (list Return) :=
  match evs with
  | [] => mret []
  | ev :: evs' => r ← step ev; rs ← run evs'; mret (r :: rs)
  end.

(** Events that leave a calibration session open: everything but
    [FinishCalibration] and [CancelCalibration]. *)
Definition keeps_session (ev : Event) : bool :=
  match ev with
  | HostCall _ CallFinishCalibration | HostCall _ CallCancelCalibration => false
  | _ => true
  end.

Definition is_report (ev : Event) : bool :=
  match ev with
  | DiscoveryReport _ => true
  | HostCall _ _ => false
  end.

(** The index the most recent report of [evs] carries, [id] if there is none. *)
Fixpoint last_report (id : N) (evs : list Event) : N :=
  match evs with
  | [] => id
  | DiscoveryReport data :: evs' => last_report (to_uint32 (controllerId data)) evs'
  | HostCall _ _ :: evs' => last_report id evs'
  end.

(** What an [UpdatePose] call of [evs] must have returned, checked against
    the returns [rs] of the run. *)
Definition poses_all (pose : vr.DriverPose_t F) (evs : list Event) (rs : list Return) : Prop :=
  Forall2 (fun ev r =>
             match ev with
             | HostCall _ CallUpdatePose => r = RetPose pose
             | _ => True
             end) evs rs.

(** The pose of a device that is not connected: zero but for the two
    identity rotations and the tracking result. *)
Definition DisconnectedPose : vr.DriverPose_t F :=
  let zero3 := vr.mkDouble3 f_zero f_zero f_zero in
  let zeroq := vr.mkHmdQuaternion f_zero f_zero f_zero f_zero in
  let identity := vr.mkHmdQuaternion f_one f_zero f_zero f_zero in
  {| vr.poseTimeOffset := f_zero;
     vr.qWorldFromDriverRotation := identity;
     vr.vecWorldFromDriverTranslation := zero3;
     vr.qDriverFromHeadRotation := identity;
     vr.vecDriverFromHeadTranslation := zero3;
     vr.vecPosition := zero3;
     vr.vecVelocity := zero3;
     vr.vecAcceleration := zero3;
     vr.qRotation := zeroq;
     vr.vecAngularVelocity := zero3;
     vr.vecAngularAcceleration := zero3;
     vr.result := vr.TrackingResult_Uninitialized;
     vr.poseIsValid := false;
     vr.willDriftInYaw := false;
     vr.shouldApplyHeadModel := false;
     vr.deviceIsConnected := false |}.

(** The session flag of the device. *)
Definition calibrating (this : ControllerPose.t F) : bool :=
  Calibration.m_isCalibrating (ControllerPose.m_calibration this).

(** No index was ever delivered: the index is the sentinel and an open
    session holds the disconnected pose. *)
Definition never_resolved (this : ControllerPose.t F) : Prop :=
  ControllerPose.m_shadowControllerId this = vr.k_unTrackedDeviceIndexInvalid
  /\ (calibrating this = true ->
      Calibration.m_maintainPose (ControllerPose.m_calibration this) = DisconnectedPose).

(** The object a run of [evs] leaves, the object itself if the run is
    undefined. *)
Definition state_after (evs : list Event) (this : ControllerPose.t F) : ControllerPose.t F :=
  match run evs this with
  | Ok (_, this') => this'
  | OutOfBounds => this
  end.

End Lifetime.

(** ** Predicates on poses and event sequences *)
Section LifetimePredicates.
Context {F : Type} `{FloatOps F}.

(** What the host may rely on in a reported pose: both frame transforms are
    the identity, no acceleration is reported, the pose is valid exactly
    when tracking runs, and a valid pose comes from a connected device. *)
Definition reported_pose_ok (pose : vr.DriverPose_t F) : Prop :=
  let zero3 := vr.mkDouble3 f_zero f_zero f_zero in
  let identity := vr.mkHmdQuaternion f_one f_zero f_zero f_zero in
  vr.qWorldFromDriverRotation pose = identity
  /\ vr.qDriverFromHeadRotation pose = identity
  /\ vr.vecWorldFromDriverTranslation pose = zero3
  /\ vr.vecDriverFromHeadTranslation pose = zero3
  /\ vr.vecAcceleration pose = zero3
  /\ vr.vecAngularAcceleration pose = zero3
  /\ vr.willDriftInYaw pose = false
  /\ vr.shouldApplyHeadModel pose = false
  /\ (vr.result pose = vr.TrackingResult_Running_OK
      \/ vr.result pose = vr.TrackingResult_Uninitialized)
  /\ (vr.poseIsValid pose = true <-> vr.result pose = vr.TrackingResult_Running_OK)
  /\ (vr.poseIsValid pose = true -> vr.deviceIsConnected pose = true).

(** An index [GetControllerPose] is never asked to read, or reads inside
    the array. *)
Definition index_readable (id : N) : bool :=
  (id <? vr.k_unMaxTrackedDeviceCount) || (id =? vr.k_unTrackedDeviceIndexInvalid).

Definition report_readable (ev : @Event F) : bool :=
  match ev with
  | DiscoveryReport data => index_readable (to_uint32 (controllerId data))
  | HostCall _ _ => true
  end.

Definition is_finish (ev : @Event F) : bool :=
  match ev with
  | HostCall _ CallFinishCalibration => true
  | _ => false
  end.


(** An open session holds a well-formed pose. *)
Definition session_ok (this : ControllerPose.t F) : Prop :=
  calibrating this = true ->
  reported_pose_ok (Calibration.m_maintainPose (ControllerPose.m_calibration this)).

End LifetimePredicates.

(** ** Reports that land during a call

    The discovery callback runs on the pipe's own thread and may run while
    the host's thread is inside a method.  [m_shadowControllerId] is one
    machine word, written by the callback and read by a method at most
    twice: by the guard ([UpdatePose] line 46, [FinishCalibration] line 107)
    and by the array access of [GetControllerPose] (line 35).  A report that
    lands before the first or after the last read of a call acts like one
    delivered before or after the call, and of several reports between two
    reads the last one counts.  What remains is one report between the
    guard and the array access, which the methods below take as [between]. *)
Section Racing.
Context {F : Type} `{FloatOps F} `{RotationOfMatrix F} `{CalibrationDerivation F}.

(** [UpdatePose] (lines 38-100) with the callback [between] running once
    during the call: between line 46 and line 47 when the call gets there,
    before the return otherwise. *)
Definition UpdatePose_interleaved (host : vr.IVRServerDriverHost F)
    (between : Method (ControllerPose.t F) unit)
  : Method (ControllerPose.t F) (vr.DriverPose_t F) :=
  calibrating ← ControllerPose.on_calibration Calibration.isCalibrating;
  if calibrating : bool then
    _ ← between;
    ControllerPose.on_calibration Calibration.GetMaintainPose
  else
    let newPose := DriverPose_zero in
    let newPose := vr.upd_qWorldFromDriverRotation (vr.set_w f_one) newPose in
    let newPose := vr.upd_qDriverFromHeadRotation (vr.set_w f_one) newPose in
    id ← member ControllerPose.m_shadowControllerId;
    if decide (id ≠ vr.k_unTrackedDeviceIndexInvalid) then
      _ ← between;
      controllerPose ← ControllerPose.GetControllerPose host;
      if vr.bPoseIsValid controllerPose then
        m_poseConfiguration ← member ControllerPose.m_poseConfiguration;
        let controllerMatrix := vr.mDeviceToAbsoluteTracking controllerPose in
        let controllerRotationMatrix := GetRotationMatrix controllerMatrix in
        let vectorOffset :=
          MultiplyMatrix controllerRotationMatrix (offsetVector m_poseConfiguration) in
        let newControllerPosition := CombinePosition controllerMatrix vectorOffset in
        let newPose := vr.upd_vecPosition (vr.set_d_0 (vr.v_0 newControllerPosition)) newPose in
        let newPose := vr.upd_vecPosition (vr.set_d_1 (vr.v_1 newControllerPosition)) newPose in
        let newPose := vr.upd_vecPosition (vr.set_d_2 (vr.v_2 newControllerPosition)) newPose in
        let newPose :=
          vr.upd_qRotation
            (fun _ => MultiplyQuaternion (GetRotation controllerMatrix)
                        (angleOffsetQuaternion m_poseConfiguration)) newPose in
        let newPose :=
          vr.upd_vecAngularVelocity
            (vr.set_d_0 (vr.v_0 (vr.vAngularVelocity controllerPose))) newPose in
        let newPose :=
          vr.upd_vecAngularVelocity
            (vr.set_d_1 (vr.v_1 (vr.vAngularVelocity controllerPose))) newPose in
        let newPose :=
          vr.upd_vecAngularVelocity
            (vr.set_d_2 (vr.v_2 (vr.vAngularVelocity controllerPose))) newPose in
        let newPose := vr.upd_vecVelocity (vr.set_d_0 (vr.v_0 (vr.vVelocity controllerPose))) newPose in
        let newPose := vr.upd_vecVelocity (vr.set_d_1 (vr.v_1 (vr.vVelocity controllerPose))) newPose in
        let newPose := vr.upd_vecVelocity (vr.set_d_2 (vr.v_2 (vr.vVelocity controllerPose))) newPose in
        let newPose := vr.upd_poseIsValid (fun _ => true) newPose in
        let newPose := vr.upd_deviceIsConnected (fun _ => true) newPose in
        let newPose := vr.upd_result (fun _ => vr.TrackingResult_Running_OK) newPose in
        let newPose := vr.upd_poseTimeOffset (fun _ => poseOffset m_poseConfiguration) newPose in
        mret newPose
      else
        let newPose := vr.upd_poseIsValid (fun _ => false) newPose in
        let newPose := vr.upd_deviceIsConnected (fun _ => true) newPose in
        let newPose := vr.upd_result (fun _ => vr.TrackingResult_Uninitialized) newPose in
        mret newPose
    else
      let newPose := vr.upd_result (fun _ => vr.TrackingResult_Uninitialized) newPose in
      let newPose := vr.upd_deviceIsConnected (fun _ => false) newPose in
      _ ← between;
      mret newPose.

(** [StartCalibration] (lines 102-104) around such an [UpdatePose]. *)
Definition StartCalibration_interleaved (host : vr.IVRServerDriverHost F)
    (between : Method (ControllerPose.t F) unit) : Method (ControllerPose.t F) unit :=
  pose ← UpdatePose_interleaved host between;
  ControllerPose.on_calibration (Calibration.StartCalibration pose).

(** [FinishCalibration] (lines 106-113) with [between] running between line
    107 and the [GetControllerPose] of line 112, before [CancelCalibration]
    on the other path. *)
Definition FinishCalibration_interleaved (host : vr.IVRServerDriverHost F)
    (between : Method (ControllerPose.t F) unit) : Method (ControllerPose.t F) unit :=
  id ← member ControllerPose.m_shadowControllerId;
  if decide (id = vr.k_unTrackedDeviceIndexInvalid) then
    _ ← between;
    ControllerPose.CancelCalibration
  else
    _ ← between;
    controllerPose ← ControllerPose.GetControllerPose host;
    poseConfiguration ← member ControllerPose.m_poseConfiguration;
    rightHand ← ControllerPose.isRightHand;
    newConfiguration ←
      ControllerPose.on_calibration
        (Calibration.FinishCalibration controllerPose poseConfiguration rightHand);
    assign (ControllerPose.set_poseConfiguration newConfiguration).

(** A call during which [data] is reported.  The two calls that do not read
    the shadow index are not affected by when the report lands. *)
Definition call_during (host : vr.IVRServerDriverHost F) (c : Call)
    (data : ControllerPipeData) : Method (ControllerPose.t F) Return :=
  match c with
  | CallUpdatePose =>
      pose ← UpdatePose_interleaved host (Deliver data); mret (RetPose pose)
  | CallStartCalibration =>
      _ ← StartCalibration_interleaved host (Deliver data); mret RetVoid
  | CallFinishCalibration =>
      _ ← FinishCalibration_interleaved host (Deliver data); mret RetVoid
  | CallCancelCalibration =>
      _ ← Deliver data; _ ← ControllerPose.CancelCalibration; mret RetVoid
  | CallIsCalibrating =>
      _ ← Deliver data; b ← ControllerPose.isCalibrating; mret (RetBool b)
  end.

(** An event of the device with its timing: one that happens apart from
    every other, or a call with a report landing during it. *)
Inductive TimedEvent : Type :=
| Apart (ev : @Event F)
| During (host : vr.IVRServerDriverHost F) (c : Call) (data : ControllerPipeData).

Definition step_timed (ev : TimedEvent) : Method (ControllerPose.t F) Return :=
  match ev with
  | Apart ev => step ev
  | During host c data => call_during host c data
  end.

Fixpoint run_timed (evs : list TimedEvent) : Method (ControllerPose.t F) (list Return) :=
  match evs with
  | [] => mret []
  | ev :: evs' => r ← step_timed ev; rs ← run_timed evs'; mret (r :: rs)
  end.

(** Every report carries an index of the array or the sentinel, and a report
    that lands during a call carries an index of the array. *)
Definition timed_readable (ev : TimedEvent) : bool :=
  match ev with
  | Apart ev => report_readable ev
  | During _ _ data => to_uint32 (controllerId data) <? vr.k_unMaxTrackedDeviceCount
  end.

(** The object after the callback ran for [data]. *)
Definition delivered (data : ControllerPipeData) (this : ControllerPose.t F)
  : ControllerPose.t F :=
  match ControllerPose.m_controllerDiscoverer this with
  | Some _ => ControllerPose.set_shadowControllerId (to_uint32 (controllerId data)) this
  | None => this
  end.

End Racing.

(** ** DeviceProvider.cpp *)

(** The enumerators of DeviceConfiguration.h the provider switches on.  The
    header is not among the sources, so their integer values are left
    open; the case labels of one [switch] are distinct. *)
Class DeviceConfigurationEnums : Type := {
  LEGACY : Z;
  ALPHA : Z;
  SERIAL : Z;
  BTSERIAL : Z;
  LUCIDGLOVES : Z;
  EMULATED_KNUCKLES : Z;
  LEGACY_ALPHA : LEGACY <> ALPHA;
  SERIAL_BTSERIAL : SERIAL <> BTSERIAL;
  LUCIDGLOVES_EMULATED_KNUCKLES : LUCIDGLOVES <> EMULATED_KNUCKLES
}.

(** The two settings section names, constants of a header that is not among
    the sources. *)
Class SettingsSections : Type := {
  c_driverSettingsSection : string;
  c_poseSettingsSection : string
}.

(** [DegToRad] and [EulerToQuaternion] of Quaternion.h, whose source is not
    available: an interface the development is generic in. *)
Class EulerConversion (F : Type) : Type := {
  DegToRad : F -> F;
  EulerToQuaternion : F -> F -> F -> vr.HmdQuaternion_t F
}.

Module DeviceProvider.
Section DeviceProvider.
Context {F : Type} `{DeviceConfigurationEnums} `{SettingsSections} `{EulerConversion F}.
Local Open Scope string_scope.

(** *** [std::string] *)

Definition is_one_of (chars : string) (c : ascii) : bool :=
  existsb (Ascii.eqb c) (list_ascii_of_string chars).

(** [s.find_last_of(chars)]: the last position of [s] that holds one of
    [chars]; [None] is [npos]. *)
Fixpoint find_last_of (chars s : string) : option nat :=
  match s with
  | EmptyString => None
  | String c s' =>
      match find_last_of chars s' with
      | Some pos => Some (S pos)
      | None => if is_one_of chars c then Some 0%nat else None
      end
  end.

(** [s.substr(0, count)]: the first [count] characters, all of [s] when
    [count] is [npos] or more than [s] has. *)
Fixpoint substr_0 (s : string) (count : option nat) : string :=
  match count, s with
  | None, _ => s
  | Some O, _ => EmptyString
  | Some (S n), EmptyString => EmptyString
  | Some (S n), String c s' => String c (substr_0 s' (Some n))
  end.

(** *** The configuration of a device *)

(** [struct VRDeviceConfiguration_t], with the members in the order its
    constructor takes them; the three protocol members hold the integer
    read from the settings. *)
Record VRDeviceConfiguration_t : Type := mkVRDeviceConfiguration {
  role : vr.ETrackedControllerRole;
  enabled : bool;
  poseConfiguration : VRPoseConfiguration_t F;
  encodingProtocol : Z;
  communicationProtocol : Z;
  deviceDriver : Z
}.

Record VRBTSerialConfiguration_t : Type := mkVRBTSerialConfiguration { bt_name : string }.
Record VRSerialConfiguration_t : Type := mkVRSerialConfiguration { serial_port : string }.

(** The objects [InstantiateDeviceDriver] builds, each by the class
    constructed and the arguments its constructor received. *)
Inductive IEncodingManager : Type :=
| LegacyEncodingManager (maxAnalogValue : Z)
| AlphaEncodingManager (maxAnalogValue : Z).

Inductive ICommunicationManager : Type :=
| BTSerialCommunicationManager
    (configuration : VRBTSerialConfiguration_t) (encodingManager : IEncodingManager)
| SerialCommunicationManager
    (configuration : VRSerialConfiguration_t) (encodingManager : IEncodingManager).

Inductive IDeviceDriver : Type :=
| KnuckleDeviceDriver
    (configuration : VRDeviceConfiguration_t) (communicationManager : ICommunicationManager)
    (serialNumber : string)
| LucidGloveDeviceDriver
    (configuration : VRDeviceConfiguration_t) (communicationManager : ICommunicationManager)
    (serialNumber : string).

(** *** What the provider is given from outside *)

(** [vr::VRSettings()]: the value each read returns.  [GetString] also takes
    the size of the buffer it writes to. *)
Record IVRSettings : Type := mkSettings {
  GetBool : string -> string -> bool;
  GetInt32 : string -> string -> Z;
  GetFloat : string -> string -> F;
  GetString : string -> string -> N -> string
}.

(** [vr::EVRInitError] by value, and [vr::ETrackedDeviceClass]. *)
Definition EVRInitError : Set := Z.
Definition VRInitError_None : EVRInitError := 0%Z.
Definition VRInitError_Init_FileNotFound : EVRInitError := 103%Z.

Inductive ETrackedDeviceClass : Set :=
| TrackedDeviceClass_Invalid
| TrackedDeviceClass_HMD
| TrackedDeviceClass_Controller
| TrackedDeviceClass_GenericTracker
| TrackedDeviceClass_TrackingReference
| TrackedDeviceClass_DisplayRedirect.

(** The surroundings of the driver: the settings; what [GetModuleFileName]
    wrote to the buffer, [None] when it failed and wrote nothing; whether
    [CreateProcess] starts a given file; the result of the n-th call of
    [InitServerDriverContext]; and the members of [IDeviceDriver] whose
    source is not available. *)
Record Environment : Type := mkEnvironment {
  VRSettings : IVRSettings;
  GetModuleFileName : option string;
  CreateProcess : string -> bool;
  InitServerDriverContext : nat -> EVRInitError;
  GetSerialNumber : IDeviceDriver -> string;
  IsActive : IDeviceDriver -> bool
}.

(** The provider: its two members, and what it has done to its
    surroundings so far, each list in the order of the calls. *)
Record t : Type := mk {
  m_leftHand : option IDeviceDriver;
  m_rightHand : option IDeviceDriver;
  context_inits : nat;
  processes_created : list string;
  devices_added : list (string * ETrackedDeviceClass * IDeviceDriver);
  frames_run : list IDeviceDriver
}.

(** A provider before [Init]: both hands null. *)
Definition new : t :=
  {| m_leftHand := None; m_rightHand := None; context_inits := 0%nat;
     processes_created := []; devices_added := []; frames_run := [] |}.

Definition set_leftHand (d : IDeviceDriver) (this : t) : t :=
  mk (Some d) (m_rightHand this) (context_inits this) (processes_created this)
     (devices_added this) (frames_run this).
Definition set_rightHand (d : IDeviceDriver) (this : t) : t :=
  mk (m_leftHand this) (Some d) (context_inits this) (processes_created this)
     (devices_added this) (frames_run this).

(** The calls that reach the surroundings. *)
Definition call_InitServerDriverContext (env : Environment) : Method t EVRInitError :=
  fun this =>
    Ok (InitServerDriverContext env (context_inits this),
        mk (m_leftHand this) (m_rightHand this) (S (context_inits this))
           (processes_created this) (devices_added this) (frames_run this)).
Definition call_CreateProcess (env : Environment) (path : string) : Method t bool :=
  fun this =>
    Ok (CreateProcess env path,
        mk (m_leftHand this) (m_rightHand this) (context_inits this)
           (processes_created this ++ [path]) (devices_added this) (frames_run this)).
Definition TrackedDeviceAdded (serialNumber : string) (class : ETrackedDeviceClass)
    (driver : IDeviceDriver) : Method t unit :=
  assign (fun this =>
    mk (m_leftHand this) (m_rightHand this) (context_inits this) (processes_created this)
       (devices_added this ++ [(serialNumber, class, driver)]) (frames_run this)).
Definition call_RunFrame (driver : IDeviceDriver) : Method t unit :=
  assign (fun this =>
    mk (m_leftHand this) (m_rightHand this) (context_inits this) (processes_created this)
       (devices_added this) (frames_run this ++ [driver])).

(** *** The functions of the file *)

(** [GetDriverPath] (lines 17-36).  Both failures are only printed; after a
    failed [GetModuleFileName] the buffer holds nothing the call wrote and
    [std::string(path)] reads it past its end. *)
Definition GetDriverPath (env : Environment) : Method t string :=
  match GetModuleFileName env with
  | Some path =>
      let pos := find_last_of "\/" path in
      mret (substr_0 path pos)
  | None => undefined
  end.

(** [CreateBackgroundProcess] (lines 38-57). *)
Definition CreateBackgroundProcess (env : Environment) : Method t bool :=
  driverPath ← GetDriverPath env;
  let path := String.append driverPath "\openglove_overlay.exe" in
  let success := true in
  created ← call_CreateProcess env path;
  let success := if negb created then false else success in
  mret success.

(** [GetDeviceConfiguration] (lines 161-207). *)
Definition GetDeviceConfiguration (env : Environment) (role : vr.ETrackedControllerRole)
  : VRDeviceConfiguration_t :=
  let settings := VRSettings env in
  let isRightHand := bool_decide (role = vr.TrackedControllerRole_RightHand) in
  let isEnabled :=
    GetBool settings c_driverSettingsSection
      (if isRightHand then "right_enabled" else "left_enabled") in
  let communicationProtocol :=
    GetInt32 settings c_driverSettingsSection "communication_protocol" in
  let encodingProtocol := GetInt32 settings c_driverSettingsSection "encoding_protocol" in
  let deviceDriver := GetInt32 settings c_driverSettingsSection "device_driver" in
  let poseOffset := GetFloat settings c_poseSettingsSection "pose_offset" in
  let offsetXPos :=
    GetFloat settings c_poseSettingsSection
      (if isRightHand then "right_x_offset_position" else "left_x_offset_position") in
  let offsetYPos :=
    GetFloat settings c_poseSettingsSection
      (if isRightHand then "right_y_offset_position" else "left_y_offset_position") in
  let offsetZPos :=
    GetFloat settings c_poseSettingsSection
      (if isRightHand then "right_z_offset_position" else "left_z_offset_position") in
  let offsetXRot :=
    GetFloat settings c_poseSettingsSection
      (if isRightHand then "right_x_offset_degrees" else "left_x_offset_degrees") in
  let offsetYRot :=
    GetFloat settings c_poseSettingsSection
      (if isRightHand then "right_y_offset_degrees" else "left_y_offset_degrees") in
  let offsetZRot :=
    GetFloat settings c_poseSettingsSection
      (if isRightHand then "right_z_offset_degrees" else "left_z_offset_degrees") in
  let controllerOverrideEnabled :=
    GetBool settings c_poseSettingsSection "controller_override" in
  let controllerIdOverride :=
    if controllerOverrideEnabled then
      GetInt32 settings c_poseSettingsSection
        (if isRightHand then "controller_override_right" else "controller_override_left")
    else (-1)%Z in
  let offsetVector := vr.mkHmdVector3 offsetXPos offsetYPos offsetZPos in
  let angleOffsetQuaternion :=
    EulerToQuaternion (DegToRad offsetXRot) (DegToRad offsetYRot) (DegToRad offsetZRot) in
  mkVRDeviceConfiguration role isEnabled
    (mkVRPoseConfiguration F offsetVector angleOffsetQuaternion poseOffset
       controllerOverrideEnabled controllerIdOverride)
    encodingProtocol communicationProtocol deviceDriver.

(** [InstantiateDeviceDriver] (lines 92-160).  In each [switch] the
    [default] label stands directly before a [case] label and falls through
    to it. *)
Definition InstantiateDeviceDriver (env : Environment)
    (configuration : VRDeviceConfiguration_t) : IDeviceDriver :=
  let settings := VRSettings env in
  let isRightHand := bool_decide (role configuration = vr.TrackedControllerRole_RightHand) in
  let legacy :=
    LegacyEncodingManager (GetInt32 settings "encoding_legacy" "max_analog_value") in
  let encodingManager :=
    if decide (encodingProtocol configuration = LEGACY) then legacy
    else if decide (encodingProtocol configuration = ALPHA) then
      AlphaEncodingManager (GetInt32 settings "encoding_alpha" "max_analog_value")
    else legacy in
  let serial :=
    let port :=
      GetString settings "communication_serial"
        (if isRightHand then "right_port" else "left_port") 16%N in
    SerialCommunicationManager (mkVRSerialConfiguration port) encodingManager in
  let communicationManager :=
    if decide (communicationProtocol configuration = BTSERIAL) then
      let name :=
        GetString settings "communication_btserial"
          (if isRightHand then "right_name" else "left_name") 248%N in
      BTSerialCommunicationManager (mkVRBTSerialConfiguration name) encodingManager
    else if decide (communicationProtocol configuration = SERIAL) then serial
    else serial in
  let lucidgloves :=
    let serialNumber :=
      GetString settings "device_lucidgloves"
        (if isRightHand then "right_serial_number" else "left_serial_number") 32%N in
    LucidGloveDeviceDriver configuration communicationManager serialNumber in
  if decide (deviceDriver configuration = EMULATED_KNUCKLES) then
    let serialNumber :=
      GetString settings "device_knuckles"
        (if isRightHand then "right_serial_number" else "left_serial_number") 32%N in
    KnuckleDeviceDriver configuration communicationManager serialNumber
  else if decide (deviceDriver configuration = LUCIDGLOVES) then lucidgloves
  else lucidgloves.

(** [Init] (lines 59-90).  [VR_INIT_SERVER_DRIVER_CONTEXT] is the macro of
    openvr_driver.h: it calls [InitServerDriverContext] again and returns its
    error if there is one. *)
Definition Init (env : Environment) : Method t EVRInitError :=
  initError ← call_InitServerDriverContext env;
  if decide (initError <> VRInitError_None) then mret initError
  else
    eError ← call_InitServerDriverContext env;
    if decide (eError <> VRInitError_None) then mret eError
    else
      created ← CreateBackgroundProcess env;
      if negb created then mret VRInitError_Init_FileNotFound
      else
        let leftConfiguration := GetDeviceConfiguration env vr.TrackedControllerRole_LeftHand in
        let rightConfiguration :=
          GetDeviceConfiguration env vr.TrackedControllerRole_RightHand in
        _ ← (if enabled leftConfiguration then
               _ ← assign (set_leftHand (InstantiateDeviceDriver env leftConfiguration));
               leftHand ← member m_leftHand;
               match leftHand with
               | Some driver =>
                   TrackedDeviceAdded (GetSerialNumber env driver)
                     TrackedDeviceClass_Controller driver
               | None => undefined
               end
             else mret tt);
        _ ← (if enabled rightConfiguration then
               _ ← assign (set_rightHand (InstantiateDeviceDriver env rightConfiguration));
               rightHand ← member m_rightHand;
               match rightHand with
               | Some driver =>
                   TrackedDeviceAdded (GetSerialNumber env driver)
                     TrackedDeviceClass_Controller driver
               | None => undefined
               end
             else mret tt);
        mret VRInitError_None.

(** [RunFrame] (lines 217-220). *)
Definition RunFrame (env : Environment) : Method t unit :=
  leftHand ← member m_leftHand;
  _ ← match leftHand with
      | Some driver => if IsActive env driver then call_RunFrame driver else mret tt
      | None => mret tt
      end;
  rightHand ← member m_rightHand;
  match rightHand with
  | Some driver => if IsActive env driver then call_RunFrame driver else mret tt
  | None => mret tt
  end.

(** [ShouldBlockStandbyMode] (line 222). *)
Definition ShouldBlockStandbyMode : Method t bool := mret false.

(** *** Predicates on paths and settings *)

(** No character of [s] is a path separator. *)
Definition no_separator (s : string) : bool :=
  forallb (fun c => negb (is_one_of "\/" c)) (list_ascii_of_string s).

(** A key that only the right hand reads, and one only the left reads. *)
Definition right_only (key : string) : bool :=
  String.prefix "right_" key || String.eqb key "controller_override_right".
Definition left_only (key : string) : bool :=
  String.prefix "left_" key || String.eqb key "controller_override_left".

(** Two settings stores return the same for every key but those [skip]
    selects. *)
Definition settings_agree (skip : string -> bool) (s1 s2 : IVRSettings) : Prop :=
  forall section key,
    skip key = false ->
    GetBool s1 section key = GetBool s2 section key
    /\ GetInt32 s1 section key = GetInt32 s2 section key
    /\ GetFloat s1 section key = GetFloat s2 section key
    /\ forall size, GetString s1 section key size = GetString s2 section key size.

Definition with_settings (s : IVRSettings) (env : Environment) : Environment :=
  mkEnvironment s (GetModuleFileName env) (CreateProcess env)
    (InitServerDriverContext env) (GetSerialNumber env) (IsActive env).

(** *** Reading the objects built *)

Definition driver_configuration (driver : IDeviceDriver) : VRDeviceConfiguration_t :=
  match driver with
  | KnuckleDeviceDriver configuration _ _ => configuration
  | LucidGloveDeviceDriver configuration _ _ => configuration
  end.
Definition driver_communication (driver : IDeviceDriver) : ICommunicationManager :=
  match driver with
  | KnuckleDeviceDriver _ communicationManager _ => communicationManager
  | LucidGloveDeviceDriver _ communicationManager _ => communicationManager
  end.
Definition communication_encoding (manager : ICommunicationManager) : IEncodingManager :=
  match manager with
  | BTSerialCommunicationManager _ encodingManager => encodingManager
  | SerialCommunicationManager _ encodingManager => encodingManager
  end.
Definition is_knuckles (driver : IDeviceDriver) : bool :=
  match driver with KnuckleDeviceDriver _ _ _ => true | LucidGloveDeviceDriver _ _ _ => false end.
Definition is_btserial (manager : ICommunicationManager) : bool :=
  match manager with
  | BTSerialCommunicationManager _ _ => true
  | SerialCommunicationManager _ _ => false
  end.
Definition is_alpha (manager : IEncodingManager) : bool :=
  match manager with AlphaEncodingManager _ => true | LegacyEncodingManager _ => false end.

(** The hands a provider holds, left first. *)
Definition hands (this : t) : list IDeviceDriver :=
  option_list (m_leftHand this) ++ option_list (m_rightHand this).

(** The entry [Init] registers for a driver. *)
Definition registration (env : Environment) (driver : IDeviceDriver)
  : string * ETrackedDeviceClass * IDeviceDriver :=
  (GetSerialNumber env driver, TrackedDeviceClass_Controller, driver).

End DeviceProvider.
Arguments VRDeviceConfiguration_t : clear implicits.
Arguments IDeviceDriver : clear implicits.
Arguments ICommunicationManager : clear implicits.
Arguments IVRSettings : clear implicits.
Arguments Environment : clear implicits.
Arguments t : clear implicits.
End DeviceProvider.

(** ** Sample data over exact rationals *)

(** Exact rational arithmetic, every result in lowest terms so that equal
    numbers are equal terms. *)
#[global] Instance Q_FloatOps : FloatOps Q :=
  {| f_zero := 0%Q;
     f_one := 1%Q;
     f_add := fun a b => Qred (a + b);
     f_sub := fun a b => Qred (a - b);
     f_mul := fun a b => Qred (a * b) |}.

(** A stand-in for [GetRotation] that is right on the sample frames, whose
    rotation block is the identity. *)
#[global] Instance Q_RotationOfMatrix : RotationOfMatrix Q :=
  {| GetRotation := fun _ => vr.mkHmdQuaternion 1%Q 0%Q 0%Q 0%Q |}.

(** A stand-in derivation: the new offset is the controller's translation,
    mirrored in x for the left hand. *)
#[global] Instance Q_CalibrationDerivation : CalibrationDerivation Q :=
  {| DeriveConfiguration := fun pose cfg right =>
       let M := vr.mDeviceToAbsoluteTracking pose in
       {| offsetVector :=
            vr.mkHmdVector3 (if right then vr.m03 M else Qopp (vr.m03 M)) (vr.m13 M) (vr.m23 M);
          angleOffsetQuaternion := angleOffsetQuaternion cfg;
          poseOffset := poseOffset cfg;
          controllerOverrideEnabled := controllerOverrideEnabled cfg;
          controllerIdOverride := controllerIdOverride cfg |} |}.

Definition sample_vec0 : vr.HmdVector3_t Q := vr.mkHmdVector3 0%Q 0%Q 0%Q.

(** A tracked controller at identity orientation and position (1, 2, 3). *)
Definition sample_tracked : vr.TrackedDevicePose_t Q :=
  {| vr.mDeviceToAbsoluteTracking :=
       vr.mkHmdMatrix34 1%Q 0%Q 0%Q 1%Q
                        0%Q 1%Q 0%Q 2%Q
                        0%Q 0%Q 1%Q 3%Q;
     vr.vVelocity := vr.mkHmdVector3 (1 # 2)%Q 0%Q 0%Q;
     vr.vAngularVelocity := vr.mkHmdVector3 0%Q (1 # 4)%Q 0%Q;
     vr.eTrackingResult := vr.TrackingResult_Running_OK;
     vr.bPoseIsValid := true;
     vr.bDeviceIsConnected := true |}.

(** A device the host knows but does not track. *)
Definition sample_untracked : vr.TrackedDevicePose_t Q :=
  {| vr.mDeviceToAbsoluteTracking :=
       vr.mkHmdMatrix34 0%Q 0%Q 0%Q 0%Q 0%Q 0%Q 0%Q 0%Q 0%Q 0%Q 0%Q 0%Q;
     vr.vVelocity := sample_vec0;
     vr.vAngularVelocity := sample_vec0;
     vr.eTrackingResult := vr.TrackingResult_Uninitialized;
     vr.bPoseIsValid := false;
     vr.bDeviceIsConnected := false |}.

(** A host tracking device 3 only; and one that tracks nothing. *)
Definition sample_host : vr.IVRServerDriverHost Q :=
  {| vr.raw_pose := fun i => if Nat.eqb i 3 then sample_tracked else sample_untracked |}.
Definition sample_host_lost : vr.IVRServerDriverHost Q :=
  {| vr.raw_pose := fun _ => sample_untracked |}.

(** Offset (0.05, 0, 0) m, no rotation offset; with and without an override. *)
Definition sample_config (overrideEnabled : bool) (override : Z) : VRPoseConfiguration_t Q :=
  {| offsetVector := vr.mkHmdVector3 (1 # 20)%Q 0%Q 0%Q;
     angleOffsetQuaternion := vr.mkHmdQuaternion 1%Q 0%Q 0%Q 0%Q;
     poseOffset := (1 # 100)%Q;
     controllerOverrideEnabled := overrideEnabled;
     controllerIdOverride := override |}.

Definition sample_device (overrideEnabled : bool) (override : Z) : ControllerPose.t Q :=
  ControllerPose.new vr.TrackedControllerRole_RightHand "lucidgloves"
    (sample_config overrideEnabled override).

(** *** Sample surroundings of the provider *)

#[global] Instance sample_enums : DeviceConfigurationEnums :=
  {| LEGACY := 0%Z; ALPHA := 1%Z; SERIAL := 0%Z; BTSERIAL := 1%Z;
     LUCIDGLOVES := 0%Z; EMULATED_KNUCKLES := 1%Z;
     LEGACY_ALPHA := ltac:(discriminate);
     SERIAL_BTSERIAL := ltac:(discriminate);
     LUCIDGLOVES_EMULATED_KNUCKLES := ltac:(discriminate) |}.

#[global] Instance sample_sections : SettingsSections :=
  {| c_driverSettingsSection := "driver_openglove"; c_poseSettingsSection := "pose_settings" |}.

(** A stand-in for the Euler conversion. *)
#[global] Instance Q_EulerConversion : EulerConversion Q :=
  {| DegToRad := fun a => a;
     EulerToQuaternion := fun _ _ _ => vr.mkHmdQuaternion 1%Q 0%Q 0%Q 0%Q |}.

(** Both hands enabled, alpha encoding over Bluetooth serial, an unknown
    device driver value, no controller override. *)
Definition sample_settings : DeviceProvider.IVRSettings Q :=
  {| DeviceProvider.GetBool := fun section key =>
       String.eqb key "left_enabled" || String.eqb key "right_enabled";
     DeviceProvider.GetInt32 := fun section key =>
       if String.eqb key "encoding_protocol" then 1%Z
       else if String.eqb key "communication_protocol" then 1%Z
       else if String.eqb key "device_driver" then 7%Z
       else if String.eqb key "max_analog_value" then 4095%Z
       else 0%Z;
     DeviceProvider.GetFloat := fun section key =>
       if String.eqb key "right_x_offset_position" then (1 # 20)%Q
       else if String.eqb key "left_x_offset_position" then (-1 # 20)%Q
       else 0%Q;
     DeviceProvider.GetString := fun section key size =>
       String.append section (String.append "/" key) |}.

(** The same store with every float the right hand alone reads changed. *)
Definition sample_settings_right_moved : DeviceProvider.IVRSettings Q :=
  {| DeviceProvider.GetBool := DeviceProvider.GetBool sample_settings;
     DeviceProvider.GetInt32 := DeviceProvider.GetInt32 sample_settings;
     DeviceProvider.GetFloat := fun section key =>
       if DeviceProvider.right_only key then 9%Q
       else DeviceProvider.GetFloat sample_settings section key;
     DeviceProvider.GetString := DeviceProvider.GetString sample_settings |}.

(** The driver loaded from a usual place; the overlay starts, the second
    surroundings differ in that it does not. *)
Definition sample_env : DeviceProvider.Environment Q :=
  {| DeviceProvider.VRSettings := sample_settings;
     DeviceProvider.GetModuleFileName :=
       Some "C:\drivers\openglove\bin\win64/driver_openglove.dll"%string;
     DeviceProvider.CreateProcess := fun _ => true;
     DeviceProvider.InitServerDriverContext := fun _ => DeviceProvider.VRInitError_None;
     DeviceProvider.GetSerialNumber := fun driver =>
       match driver with
       | DeviceProvider.KnuckleDeviceDriver _ _ serialNumber => serialNumber
       | DeviceProvider.LucidGloveDeviceDriver _ _ serialNumber => serialNumber
       end;
     DeviceProvider.IsActive := fun driver =>
       bool_decide (DeviceProvider.role (DeviceProvider.driver_configuration driver)
                    = vr.TrackedControllerRole_RightHand) |}.

Definition sample_env_no_overlay : DeviceProvider.Environment Q :=
  {| DeviceProvider.VRSettings := sample_settings;
     DeviceProvider.GetModuleFileName := DeviceProvider.GetModuleFileName sample_env;
     DeviceProvider.CreateProcess := fun _ => false;
     DeviceProvider.InitServerDriverContext := DeviceProvider.InitServerDriverContext sample_env;
     DeviceProvider.GetSerialNumber := DeviceProvider.GetSerialNumber sample_env;
     DeviceProvider.IsActive := DeviceProvider.IsActive sample_env |}.

(** The provider each sample surroundings leaves after [Init]. *)
Definition provider_after_Init (env : DeviceProvider.Environment Q) : DeviceProvider.t Q :=
  match DeviceProvider.Init env DeviceProvider.new with
  | Ok (_, this) => this
  | OutOfBounds => DeviceProvider.new
  end.

(** ** Properties *)
Section Properties.
Context {F : Type} `{FloatOps F} `{RotationOfMatrix F} `{CalibrationDerivation F}.
Implicit Types (host : vr.IVRServerDriverHost F) (this : ControllerPose.t F).
Implicit Types (evs : list (@Event F)) (rs : list (@Return F)).

Ltac method_unfold :=
  unfold ControllerPose.UpdatePose, ControllerPose.StartCalibration,
    ControllerPose.FinishCalibration, ControllerPose.CancelCalibration,
    ControllerPose.isCalibrating, ControllerPose.isRightHand,
    ControllerPose.on_calibration,
    Calibration.isCalibrating, Calibration.GetMaintainPose,
    Calibration.StartCalibration, Calibration.FinishCalibration,
    Calibration.CancelCalibration,
    mbind, Method_bind, mret, Method_ret, member, assign, undefined.

(** *** The snapshot array *)

Lemma GetRawTrackedDevicePoses_lookup host (count : N) (i : nat) :
  vr.GetRawTrackedDevicePoses host count !! i =
  if decide (i < N.to_nat count)%nat then Some (vr.raw_pose host i) else None.
Proof.
  unfold vr.GetRawTrackedDevicePoses.
  change (map (vr.raw_pose host) (seq 0 (N.to_nat count)))
    with (vr.raw_pose host <$> seq 0 (N.to_nat count)).
  rewrite list_lookup_fmap.
  destruct (decide (i < N.to_nat count)%nat) as [Hlt | Hge].
  - rewrite lookup_seq_lt by exact Hlt. reflexivity.
  - rewrite lookup_seq_ge by lia. reflexivity.
Qed.

Lemma GetControllerPose_eq host this :
  ControllerPose.GetControllerPose host this =
  if decide (ControllerPose.m_shadowControllerId this < vr.k_unMaxTrackedDeviceCount)
  then Ok (vr.raw_pose host (N.to_nat (ControllerPose.m_shadowControllerId this)), this)
  else OutOfBounds.
Proof.
  unfold ControllerPose.GetControllerPose. method_unfold.
  rewrite GetRawTrackedDevicePoses_lookup.
  destruct (decide (_ < _)%nat) as [Hlt | Hge];
    destruct (decide (_ < _)) as [Hlt' | Hge']; try reflexivity; lia.
Qed.

Lemma GetControllerPose_state host this pose this' :
  ControllerPose.GetControllerPose host this = Ok (pose, this') -> this' = this.
Proof.
  rewrite GetControllerPose_eq. destruct (decide _); congruence.
Qed.

Lemma set_calibration_same this :
  ControllerPose.set_calibration (ControllerPose.m_calibration this) this = this.
Proof. destruct this; reflexivity. Qed.

(** *** The three branches of [UpdatePose] outside calibration *)

Lemma UpdatePose_calibrating host this :
  calibrating this = true ->
  ControllerPose.UpdatePose host this =
  Ok (Calibration.m_maintainPose (ControllerPose.m_calibration this), this).
Proof.
  unfold calibrating. intros Hc. method_unfold. cbn. rewrite Hc. cbn.
  rewrite !set_calibration_same. reflexivity.
Qed.

Lemma UpdatePose_unresolved host this :
  calibrating this = false ->
  ControllerPose.m_shadowControllerId this = vr.k_unTrackedDeviceIndexInvalid ->
  ControllerPose.UpdatePose host this = Ok (DisconnectedPose, this).
Proof.
  unfold calibrating. intros Hc Hid. method_unfold. cbn. rewrite Hc. cbn.
  rewrite !set_calibration_same, Hid.
  destruct (decide _) as [Hne | _]; [contradiction | reflexivity].
Qed.

Lemma UpdatePose_resolved host this :
  calibrating this = false ->
  ControllerPose.m_shadowControllerId this <> vr.k_unTrackedDeviceIndexInvalid ->
  ControllerPose.UpdatePose host this =
  match ControllerPose.GetControllerPose host this with
  | Ok (controllerPose, _) =>
      if vr.bPoseIsValid controllerPose then
        let M := vr.mDeviceToAbsoluteTracking controllerPose in
        let cfg := ControllerPose.m_poseConfiguration this in
        let position :=
          CombinePosition M (MultiplyMatrix (GetRotationMatrix M) (offsetVector cfg)) in
        let identity := vr.mkHmdQuaternion f_one f_zero f_zero f_zero in
        let zero3 := vr.mkDouble3 f_zero f_zero f_zero in
        Ok ({| vr.poseTimeOffset := poseOffset cfg;
               vr.qWorldFromDriverRotation := identity;
               vr.vecWorldFromDriverTranslation := zero3;
               vr.qDriverFromHeadRotation := identity;
               vr.vecDriverFromHeadTranslation := zero3;
               vr.vecPosition :=
                 vr.mkDouble3 (vr.v_0 position) (vr.v_1 position) (vr.v_2 position);
               vr.vecVelocity :=
                 vr.mkDouble3 (vr.v_0 (vr.vVelocity controllerPose))
                   (vr.v_1 (vr.vVelocity controllerPose))
                   (vr.v_2 (vr.vVelocity controllerPose));
               vr.vecAcceleration := zero3;
               vr.qRotation :=
                 MultiplyQuaternion (GetRotation M) (angleOffsetQuaternion cfg);
               vr.vecAngularVelocity :=
                 vr.mkDouble3 (vr.v_0 (vr.vAngularVelocity controllerPose))
                   (vr.v_1 (vr.vAngularVelocity controllerPose))
                   (vr.v_2 (vr.vAngularVelocity controllerPose));
               vr.vecAngularAcceleration := zero3;
               vr.result := vr.TrackingResult_Running_OK;
               vr.poseIsValid := true;
               vr.willDriftInYaw := false;
               vr.shouldApplyHeadModel := false;
               vr.deviceIsConnected := true |}, this)
      else
        Ok (vr.upd_deviceIsConnected (fun _ => true) DisconnectedPose, this)
  | OutOfBounds => OutOfBounds
  end.
Proof.
  unfold calibrating. intros Hc Hid. method_unfold. cbn. rewrite Hc. cbn.
  rewrite !set_calibration_same.
  destruct (decide _) as [_ | Heq]; [| contradiction].
  destruct (ControllerPose.GetControllerPose host this) as [[cp this'] |] eqn:Hget;
    [| reflexivity].
  apply GetControllerPose_state in Hget. subst this'.
  destruct (vr.bPoseIsValid cp); reflexivity.
Qed.

(** *** The tracked frame *)


(** *** The unresolved and the untracked frame *)

(** C6: outside calibration, with the shadow index equal to the invalid
    sentinel, [UpdatePose] returns the pose with [deviceIsConnected] false,
    result [Uninitialized], [poseIsValid] false, the two frame rotations the
    identity quaternion and every other member zero. *)
Theorem UpdatePose_disconnected host this :
  calibrating this = false ->
  ControllerPose.m_shadowControllerId this = vr.k_unTrackedDeviceIndexInvalid ->
  let zero3 := vr.mkDouble3 f_zero f_zero f_zero in
  let zeroq := vr.mkHmdQuaternion f_zero f_zero f_zero f_zero in
  let identity := vr.mkHmdQuaternion f_one f_zero f_zero f_zero in
  ControllerPose.UpdatePose host this =
  Ok ({| vr.poseTimeOffset := f_zero;
         vr.qWorldFromDriverRotation := identity;
         vr.vecWorldFromDriverTranslation := zero3;
         vr.qDriverFromHeadRotation := identity;
         vr.vecDriverFromHeadTranslation := zero3;
         vr.vecPosition := zero3;
         vr.vecVelocity := zero3;
         vr.vecAcceleration := zero3;
         vr.qRotation := zeroq;
         vr.vecAngularVelocity := zero3;
         vr.vecAngularAcceleration := zero3;
         vr.result := vr.TrackingResult_Uninitialized;
         vr.poseIsValid := false;
         vr.willDriftInYaw := false;
         vr.shouldApplyHeadModel := false;
         vr.deviceIsConnected := false |}, this).
Proof.
  intros Hidle Hid. cbn zeta.
  rewrite (UpdatePose_unresolved host this Hidle Hid). reflexivity.
Qed.

(** C7: outside calibration, with the shadow index resolved and the fetched
    raw pose not valid, [UpdatePose] returns a pose with [deviceIsConnected]
    true, [poseIsValid] false and result [Uninitialized]. *)
Theorem UpdatePose_untracked host this controllerPose :
  calibrating this = false ->
  ControllerPose.m_shadowControllerId this <> vr.k_unTrackedDeviceIndexInvalid ->
  ControllerPose.GetControllerPose host this = Ok (controllerPose, this) ->
  vr.bPoseIsValid controllerPose = false ->
  exists pose,
    ControllerPose.UpdatePose host this = Ok (pose, this) /\
    vr.deviceIsConnected pose = true /\
    vr.poseIsValid pose = false /\
    vr.result pose = vr.TrackingResult_Uninitialized.
Proof.
  intros Hidle Hid Hget Hvalid.
  rewrite (UpdatePose_resolved host this Hidle Hid), Hget, Hvalid.
  eexists. split; [reflexivity |]. cbn. repeat split; reflexivity.
Qed.

(** *** What each method does to the object *)

Lemma UpdatePose_state host this pose this' :
  ControllerPose.UpdatePose host this = Ok (pose, this') -> this' = this.
Proof.
  destruct (calibrating this) eqn:Hc.
  - rewrite (UpdatePose_calibrating host this Hc). congruence.
  - destruct (decide (ControllerPose.m_shadowControllerId this
                      = vr.k_unTrackedDeviceIndexInvalid)) as [Hid | Hid].
    + rewrite (UpdatePose_unresolved host this Hc Hid). congruence.
    + rewrite (UpdatePose_resolved host this Hc Hid).
      destruct (ControllerPose.GetControllerPose host this) as [[cp s] |];
        [| discriminate].
      destruct (vr.bPoseIsValid cp); congruence.
Qed.

Lemma StartCalibration_eq host this :
  ControllerPose.StartCalibration host this =
  match ControllerPose.UpdatePose host this with
  | Ok (pose, _) =>
      Ok (tt, ControllerPose.set_calibration (Calibration.mk true pose) this)
  | OutOfBounds => OutOfBounds
  end.
Proof.
  unfold ControllerPose.StartCalibration, mbind, Method_bind.
  destruct (ControllerPose.UpdatePose host this) as [[pose this'] |] eqn:Hpose;
    [| reflexivity].
  apply UpdatePose_state in Hpose. subst this'. reflexivity.
Qed.

Lemma CancelCalibration_eq this :
  ControllerPose.CancelCalibration this =
  Ok (tt, ControllerPose.set_calibration
            (Calibration.mk false
               (Calibration.m_maintainPose (ControllerPose.m_calibration this))) this).
Proof. reflexivity. Qed.

Lemma FinishCalibration_unresolved host this :
  ControllerPose.m_shadowControllerId this = vr.k_unTrackedDeviceIndexInvalid ->
  ControllerPose.FinishCalibration host this = ControllerPose.CancelCalibration this.
Proof.
  intros Hid. unfold ControllerPose.FinishCalibration, mbind, Method_bind, member.
  destruct (decide _) as [_ | Hne]; [reflexivity | contradiction].
Qed.

Lemma FinishCalibration_resolved host this :
  ControllerPose.m_shadowControllerId this <> vr.k_unTrackedDeviceIndexInvalid ->
  ControllerPose.FinishCalibration host this =
  match ControllerPose.GetControllerPose host this with
  | Ok (controllerPose, _) =>
      Ok (tt,
          ControllerPose.set_poseConfiguration
            (DeriveConfiguration controllerPose (ControllerPose.m_poseConfiguration this)
               (bool_decide (ControllerPose.m_shadowDeviceOfRole this
                             = vr.TrackedControllerRole_RightHand)))
            (ControllerPose.set_calibration
               (Calibration.mk false
                  (Calibration.m_maintainPose (ControllerPose.m_calibration this))) this))
  | OutOfBounds => OutOfBounds
  end.
Proof.
  intros Hid. unfold ControllerPose.FinishCalibration, mbind, Method_bind, member.
  destruct (decide _) as [Heq | _]; [contradiction |].
  destruct (ControllerPose.GetControllerPose host this) as [[cp this'] |] eqn:Hget;
    [| reflexivity].
  apply GetControllerPose_state in Hget. subst this'. reflexivity.
Qed.

(** Only a delivered report writes the shadow index, and nothing after the
    constructor touches the role or the discovery pipe. *)
Lemma step_members ev this r this' :
  step ev this = Ok (r, this') ->
  ControllerPose.m_shadowDeviceOfRole this' = ControllerPose.m_shadowDeviceOfRole this
  /\ ControllerPose.m_controllerDiscoverer this' = ControllerPose.m_controllerDiscoverer this
  /\ ControllerPose.m_shadowControllerId this' =
     match ev, ControllerPose.m_controllerDiscoverer this with
     | DiscoveryReport data, Some _ => to_uint32 (controllerId data)
     | _, _ => ControllerPose.m_shadowControllerId this
     end.
Proof.
  destruct ev as [host [] | data]; cbn [step call]; unfold mbind, Method_bind.
  - destruct (ControllerPose.UpdatePose host this) as [[pose s] |] eqn:Hpose;
      [| discriminate].
    apply UpdatePose_state in Hpose. subst s. cbn. intros [= _ <-]. auto.
  - rewrite StartCalibration_eq.
    destruct (ControllerPose.UpdatePose host this) as [[pose s] |]; [| discriminate].
    cbn. intros [= _ <-]. auto.
  - destruct (decide (ControllerPose.m_shadowControllerId this
                      = vr.k_unTrackedDeviceIndexInvalid)) as [Hid | Hid].
    + rewrite (FinishCalibration_unresolved host this Hid), CancelCalibration_eq.
      cbn. intros [= _ <-]. auto.
    + rewrite (FinishCalibration_resolved host this Hid).
      destruct (ControllerPose.GetControllerPose host this) as [[cp s] |];
        [| discriminate].
      cbn. intros [= _ <-]. auto.
  - rewrite CancelCalibration_eq. cbn. intros [= _ <-]. auto.
  - cbn. intros [= _ <-]. rewrite set_calibration_same. auto.
  - unfold Deliver.
    destruct (ControllerPose.m_controllerDiscoverer this) eqn:Hpipe;
      cbn; intros [= _ <-]; cbn; auto.
Qed.

Lemma run_cons ev evs this :
  run (ev :: evs) this =
  match step ev this with
  | Ok (r, this') =>
      match run evs this' with
      | Ok (rs, this'') => Ok (r :: rs, this'')
      | OutOfBounds => OutOfBounds
      end
  | OutOfBounds => OutOfBounds
  end.
Proof.
  cbn [run]. unfold mbind, Method_bind.
  destruct (step ev this) as [[r this'] |]; [| reflexivity].
  destruct (run evs this') as [[rs this''] |]; reflexivity.
Qed.

Lemma run_app evs1 evs2 this :
  run (evs1 ++ evs2) this =
  match run evs1 this with
  | Ok (rs1, this') =>
      match run evs2 this' with
      | Ok (rs2, this'') => Ok (rs1 ++ rs2, this'')
      | OutOfBounds => OutOfBounds
      end
  | OutOfBounds => OutOfBounds
  end.
Proof.
  revert this. induction evs1 as [| ev evs1 IH]; intros this.
  - cbn. destruct (run evs2 this) as [[rs2 this''] |]; reflexivity.
  - rewrite <- app_comm_cons, !run_cons.
    destruct (step ev this) as [[r this'] |]; [| reflexivity].
    rewrite IH. destruct (run evs1 this') as [[rs1 s1] |]; [| reflexivity].
    destruct (run evs2 s1) as [[rs2 s2] |]; reflexivity.
Qed.

Lemma run_members evs : forall this rs this',
  run evs this = Ok (rs, this') ->
  ControllerPose.m_shadowDeviceOfRole this' = ControllerPose.m_shadowDeviceOfRole this
  /\ ControllerPose.m_controllerDiscoverer this' = ControllerPose.m_controllerDiscoverer this
  /\ ControllerPose.m_shadowControllerId this' =
     match ControllerPose.m_controllerDiscoverer this with
     | Some _ => last_report (ControllerPose.m_shadowControllerId this) evs
     | None => ControllerPose.m_shadowControllerId this
     end.
Proof.
  induction evs as [| ev evs IH]; intros this rs this'.
  - cbn. intros [= _ <-]. destruct (ControllerPose.m_controllerDiscoverer this); auto.
  - rewrite run_cons.
    destruct (step ev this) as [[r s] |] eqn:Hstep; [| discriminate].
    destruct (run evs s) as [[rs' s'] |] eqn:Hrun; [| discriminate].
    intros [= _ <-].
    destruct (step_members _ _ _ _ Hstep) as (Hrole & Hpipe & Hid).
    destruct (IH _ _ _ Hrun) as (Hrole' & Hpipe' & Hid').
    rewrite Hrole', Hpipe', Hid', Hrole, Hpipe, Hid.
    repeat split.
    destruct (ControllerPose.m_controllerDiscoverer this); destruct ev; reflexivity.
Qed.

(** *** The calibration session *)

Lemma Calibration_eta (c : Calibration.t F) :
  Calibration.mk (Calibration.m_isCalibrating c) (Calibration.m_maintainPose c) = c.
Proof. destruct c; reflexivity. Qed.

(** An event that is neither [FinishCalibration] nor [CancelCalibration]
    returns, leaves an open session as it is, and answers a pose request with
    the maintain pose. *)
Lemma step_in_session ev this :
  calibrating this = true ->
  keeps_session ev = true ->
  exists r this',
    step ev this = Ok (r, this')
    /\ ControllerPose.m_calibration this' = ControllerPose.m_calibration this
    /\ match ev with
       | HostCall _ CallUpdatePose =>
           r = RetPose (Calibration.m_maintainPose (ControllerPose.m_calibration this))
       | _ => True
       end.
Proof.
  intros Hc Hev.
  destruct ev as [host [] | data]; try discriminate Hev;
    cbn [step call]; unfold mbind, Method_bind.
  - rewrite (UpdatePose_calibrating host this Hc). cbn. eauto.
  - rewrite StartCalibration_eq, (UpdatePose_calibrating host this Hc). cbn.
    do 2 eexists. split; [reflexivity |]. split; [| exact I].
    cbn. unfold calibrating in Hc. rewrite <- Hc. apply Calibration_eta.
  - cbn. rewrite set_calibration_same. eauto.
  - unfold Deliver.
    destruct (ControllerPose.m_controllerDiscoverer this); cbn; eauto.
Qed.

Lemma run_in_session evs : forall this,
  calibrating this = true ->
  forallb keeps_session evs = true ->
  exists rs this',
    run evs this = Ok (rs, this')
    /\ ControllerPose.m_calibration this' = ControllerPose.m_calibration this
    /\ poses_all (Calibration.m_maintainPose (ControllerPose.m_calibration this)) evs rs.
Proof.
  induction evs as [| ev evs IH]; intros this Hc Hevs.
  - exists [], this. repeat split. constructor.
  - cbn [forallb] in Hevs. apply andb_prop in Hevs as [Hev Hevs].
    destruct (step_in_session ev this Hc Hev) as (r & s & Hstep & Hcal & Hr).
    assert (Hc' : calibrating s = true) by (unfold calibrating; rewrite Hcal; exact Hc).
    destruct (IH s Hc' Hevs) as (rs & s' & Hrun & Hcal' & Hrs).
    exists (r :: rs), s'. rewrite run_cons, Hstep, Hrun.
    split; [reflexivity |]. split; [congruence |].
    rewrite Hcal in Hrs. constructor; assumption.
Qed.

(** C2: once [StartCalibration] has returned, every event sequence that does
    not end the session runs to completion, each [UpdatePose] call in it
    returns the pose [StartCalibration] captured, whatever the host reports
    and whatever index the discovery pipe delivers in between; and any
    object holding this session, whatever its shadow index and
    configuration, answers [UpdatePose] with that pose without reading the
    host. *)
Theorem UpdatePose_frozen_while_calibrating host0 this this1 evs :
  ControllerPose.StartCalibration host0 this = Ok (tt, this1) ->
  forallb keeps_session evs = true ->
  exists captured rs this2,
    ControllerPose.UpdatePose host0 this = Ok (captured, this)
    /\ run evs this1 = Ok (rs, this2)
    /\ poses_all captured evs rs
    /\ calibrating this2 = true
    /\ forall host other,
         ControllerPose.m_calibration other = ControllerPose.m_calibration this2 ->
         ControllerPose.UpdatePose host other = Ok (captured, other).
Proof.
  intros Hstart Hevs. rewrite StartCalibration_eq in Hstart.
  destruct (ControllerPose.UpdatePose host0 this) as [[captured s] |] eqn:Hpose;
    [| discriminate].
  pose proof (UpdatePose_state _ _ _ _ Hpose) as ->.
  injection Hstart as <-.
  destruct (run_in_session evs
              (ControllerPose.set_calibration (Calibration.mk true captured) this)
              eq_refl Hevs) as (rs & this2 & Hrun & Hcal & Hrs).
  exists captured, rs, this2. cbn in Hcal, Hrs.
  split; [reflexivity |]. split; [exact Hrun |]. split; [exact Hrs |].
  split; [unfold calibrating; rewrite Hcal; reflexivity |].
  intros host other Hother.
  rewrite (UpdatePose_calibrating host other), Hother, Hcal; [reflexivity |].
  unfold calibrating. rewrite Hother, Hcal. reflexivity.
Qed.



(** C8: outside calibration the pose [UpdatePose] returns is a function of
    the shadow index, the configuration and the raw pose the host holds for
    that index: two calls that agree on these return the same pose (or both
    read out of bounds), and a call leaves the object as it was. *)
Theorem UpdatePose_deterministic host1 host2 this1 this2 :
  calibrating this1 = false ->
  calibrating this2 = false ->
  ControllerPose.m_shadowControllerId this1 = ControllerPose.m_shadowControllerId this2 ->
  ControllerPose.m_poseConfiguration this1 = ControllerPose.m_poseConfiguration this2 ->
  vr.raw_pose host1 (N.to_nat (ControllerPose.m_shadowControllerId this1))
  = vr.raw_pose host2 (N.to_nat (ControllerPose.m_shadowControllerId this1)) ->
  returned (ControllerPose.UpdatePose host1 this1)
  = returned (ControllerPose.UpdatePose host2 this2)
  /\ forall pose this1',
       ControllerPose.UpdatePose host1 this1 = Ok (pose, this1') ->
       this1' = this1 /\ ControllerPose.UpdatePose host1 this1' = Ok (pose, this1').
Proof.
  intros Hc1 Hc2 Hid Hcfg Hraw. split.
  - destruct (decide (ControllerPose.m_shadowControllerId this1
                      = vr.k_unTrackedDeviceIndexInvalid)) as [Hinv | Hres].
    + rewrite (UpdatePose_unresolved host1 this1 Hc1 Hinv).
      rewrite Hid in Hinv. rewrite (UpdatePose_unresolved host2 this2 Hc2 Hinv).
      reflexivity.
    + rewrite (UpdatePose_resolved host1 this1 Hc1 Hres).
      rewrite Hid in Hres. rewrite (UpdatePose_resolved host2 this2 Hc2 Hres).
      rewrite !GetControllerPose_eq, <- Hid, <- Hcfg, <- Hraw.
      destruct (decide _); [| reflexivity].
      destruct (vr.bPoseIsValid _); reflexivity.
  - intros pose this1' Hpose.
    pose proof (UpdatePose_state _ _ _ _ Hpose) as ->. auto.
Qed.

(** C9: [GetControllerPose] returns exactly when the shadow index is below
    [k_unMaxTrackedDeviceCount]; a device constructed with an override index
    at or above that bound, other than the invalid sentinel, passes the only
    guard of [UpdatePose] and of [FinishCalibration] and reads out of
    bounds in both. *)
Theorem GetControllerPose_in_bounds_iff :
  (forall host this,
     (exists pose, ControllerPose.GetControllerPose host this = Ok (pose, this))
     <-> ControllerPose.m_shadowControllerId this < vr.k_unMaxTrackedDeviceCount)
  /\ (forall host this,
        ControllerPose.GetControllerPose host this = OutOfBounds
        <-> vr.k_unMaxTrackedDeviceCount <= ControllerPose.m_shadowControllerId this)
  /\ (forall host role manufacturer configuration,
        controllerOverrideEnabled configuration = true ->
        vr.k_unMaxTrackedDeviceCount <= to_uint32 (controllerIdOverride configuration) ->
        to_uint32 (controllerIdOverride configuration) <> vr.k_unTrackedDeviceIndexInvalid ->
        let this := ControllerPose.new role manufacturer configuration in
        ControllerPose.UpdatePose host this = OutOfBounds
        /\ ControllerPose.FinishCalibration host this = OutOfBounds).
Proof.
  split; [| split].
  - intros host this. rewrite GetControllerPose_eq.
    destruct (decide _) as [Hlt | Hge]; split; eauto.
    + intros [pose Hpose]. discriminate.
    + contradiction.
  - intros host this. rewrite GetControllerPose_eq.
    destruct (decide _) as [Hlt | Hge]; split; try discriminate; try reflexivity; lia.
  - intros host role manufacturer configuration Hoverride Hbound Hvalid this.
    assert (Hid : ControllerPose.m_shadowControllerId this
                  = to_uint32 (controllerIdOverride configuration)).
    { unfold this, ControllerPose.new. cbn. rewrite Hoverride. reflexivity. }
    assert (Hget : ControllerPose.GetControllerPose host this = OutOfBounds).
    { rewrite GetControllerPose_eq, Hid.
      destruct (decide _) as [Hlt | _]; [lia | reflexivity]. }
    split.
    + rewrite UpdatePose_resolved, Hget; [reflexivity | | congruence].
      unfold this, ControllerPose.new, calibrating. cbn.
      destruct (controllerOverrideEnabled configuration); reflexivity.
    + rewrite FinishCalibration_resolved, Hget; [reflexivity | congruence].
Qed.

(** *** Resolution of the shadow index *)

(** C3: with the override enabled the constructor stores the override
    (converted to [uint32_t]) as shadow index and starts no discovery pipe,
    and no event changes the index afterwards; with the override disabled
    the index starts as the invalid sentinel, a pipe listens for the
    device's role, and after any events the index is the one the most
    recent report carried.  When this is 3, [GetControllerPose] returns the
    host's raw pose of device 3 and a non-calibrating [UpdatePose] returns
    the pose computed from that raw pose: if it is valid, its translation
    plus the rotated offset, its rotation times the offset quaternion, its
    velocities, valid, connected and [Running_OK]; if it is not valid, the
    connected pose that is not valid; so the result depends on the host
    through the raw pose of device 3 only. *)
Theorem shadow_index_resolution role manufacturer configuration :
  let this0 := ControllerPose.new role manufacturer configuration in
  (controllerOverrideEnabled configuration = true ->
   ControllerPose.m_shadowControllerId this0 = to_uint32 (controllerIdOverride configuration)
   /\ ((0 <= controllerIdOverride configuration < 2 ^ 32)%Z ->
       Z.of_N (ControllerPose.m_shadowControllerId this0) = controllerIdOverride configuration)
   /\ ControllerPose.m_controllerDiscoverer this0 = None
   /\ forall evs rs this,
        run evs this0 = Ok (rs, this) ->
        ControllerPose.m_shadowControllerId this = ControllerPose.m_shadowControllerId this0)
  /\ (controllerOverrideEnabled configuration = false ->
      ControllerPose.m_shadowControllerId this0 = vr.k_unTrackedDeviceIndexInvalid
      /\ ControllerPose.m_controllerDiscoverer this0 = Some (mkControllerDiscoveryPipe role)
      /\ forall evs rs this,
           run evs this0 = Ok (rs, this) ->
           ControllerPose.m_shadowControllerId this
           = last_report vr.k_unTrackedDeviceIndexInvalid evs
           /\ (last_report vr.k_unTrackedDeviceIndexInvalid evs = 3 ->
               forall host,
                 ControllerPose.GetControllerPose host this = Ok (vr.raw_pose host 3%nat, this)
                 /\ (calibrating this = false ->
                     (let controllerPose := vr.raw_pose host 3%nat in
                      let M := vr.mDeviceToAbsoluteTracking controllerPose in
                      let cfg := ControllerPose.m_poseConfiguration this in
                      let position :=
                        CombinePosition M
                          (MultiplyMatrix (GetRotationMatrix M) (offsetVector cfg)) in
                      let identity := vr.mkHmdQuaternion f_one f_zero f_zero f_zero in
                      let zeroq := vr.mkHmdQuaternion f_zero f_zero f_zero f_zero in
                      let zero3 := vr.mkDouble3 f_zero f_zero f_zero in
                      ControllerPose.UpdatePose host this =
                      Ok (if vr.bPoseIsValid controllerPose then
                            {| vr.poseTimeOffset := poseOffset cfg;
                               vr.qWorldFromDriverRotation := identity;
                               vr.vecWorldFromDriverTranslation := zero3;
                               vr.qDriverFromHeadRotation := identity;
                               vr.vecDriverFromHeadTranslation := zero3;
                               vr.vecPosition :=
                                 vr.mkDouble3 (vr.v_0 position) (vr.v_1 position)
                                   (vr.v_2 position);
                               vr.vecVelocity :=
                                 vr.mkDouble3 (vr.v_0 (vr.vVelocity controllerPose))
                                   (vr.v_1 (vr.vVelocity controllerPose))
                                   (vr.v_2 (vr.vVelocity controllerPose));
                               vr.vecAcceleration := zero3;
                               vr.qRotation :=
                                 MultiplyQuaternion (GetRotation M)
                                   (angleOffsetQuaternion cfg);
                               vr.vecAngularVelocity :=
                                 vr.mkDouble3 (vr.v_0 (vr.vAngularVelocity controllerPose))
                                   (vr.v_1 (vr.vAngularVelocity controllerPose))
                                   (vr.v_2 (vr.vAngularVelocity controllerPose));
                               vr.vecAngularAcceleration := zero3;
                               vr.result := vr.TrackingResult_Running_OK;
                               vr.poseIsValid := true;
                               vr.willDriftInYaw := false;
                               vr.shouldApplyHeadModel := false;
                               vr.deviceIsConnected := true |}
                          else
                            {| vr.poseTimeOffset := f_zero;
                               vr.qWorldFromDriverRotation := identity;
                               vr.vecWorldFromDriverTranslation := zero3;
                               vr.qDriverFromHeadRotation := identity;
                               vr.vecDriverFromHeadTranslation := zero3;
                               vr.vecPosition := zero3;
                               vr.vecVelocity := zero3;
                               vr.vecAcceleration := zero3;
                               vr.qRotation := zeroq;
                               vr.vecAngularVelocity := zero3;
                               vr.vecAngularAcceleration := zero3;
                               vr.result := vr.TrackingResult_Uninitialized;
                               vr.poseIsValid := false;
                               vr.willDriftInYaw := false;
                               vr.shouldApplyHeadModel := false;
                               vr.deviceIsConnected := true |},
                          this))
                     /\ exists pose,
                          ControllerPose.UpdatePose host this = Ok (pose, this)
                          /\ forall host',
                               vr.raw_pose host' 3%nat = vr.raw_pose host 3%nat ->
                               ControllerPose.UpdatePose host' this = Ok (pose, this)))).
Proof.
  intros this0. split; intros Hflag.
  - assert (Hid : ControllerPose.m_shadowControllerId this0
                  = to_uint32 (controllerIdOverride configuration)).
    { unfold this0, ControllerPose.new. cbn. rewrite Hflag. reflexivity. }
    assert (Hpipe : ControllerPose.m_controllerDiscoverer this0 = None).
    { unfold this0, ControllerPose.new. cbn. rewrite Hflag. reflexivity. }
    split; [exact Hid |]. split; [| split; [exact Hpipe |]].
    + intros Hrange. rewrite Hid. unfold to_uint32.
      rewrite Z.mod_small by exact Hrange. apply Z2N.id. lia.
    + intros evs rs this Hrun.
      destruct (run_members _ _ _ _ Hrun) as (_ & _ & Hlast).
      rewrite Hpipe in Hlast. exact Hlast.
  - assert (Hid : ControllerPose.m_shadowControllerId this0
                  = vr.k_unTrackedDeviceIndexInvalid).
    { unfold this0, ControllerPose.new. cbn. rewrite Hflag. reflexivity. }
    assert (Hpipe : ControllerPose.m_controllerDiscoverer this0
                    = Some (mkControllerDiscoveryPipe role)).
    { unfold this0, ControllerPose.new. cbn. rewrite Hflag. reflexivity. }
    split; [exact Hid |]. split; [exact Hpipe |].
    intros evs rs this Hrun.
    destruct (run_members _ _ _ _ Hrun) as (_ & _ & Hlast).
    rewrite Hpipe, Hid in Hlast. split; [exact Hlast |].
    intros Hthree host. rewrite Hthree in Hlast.
    assert (Hget : forall h,
               ControllerPose.GetControllerPose h this = Ok (vr.raw_pose h 3%nat, this)).
    { intros h. rewrite GetControllerPose_eq, Hlast. reflexivity. }
    split; [apply Hget |]. intros Hidle.
    assert (Hres : ControllerPose.m_shadowControllerId this
                   <> vr.k_unTrackedDeviceIndexInvalid)
      by (rewrite Hlast; discriminate).
    split.
    + cbv zeta. rewrite (UpdatePose_resolved host this Hidle Hres), Hget.
      destruct (vr.bPoseIsValid (vr.raw_pose host 3%nat)); reflexivity.
    + rewrite (UpdatePose_resolved host this Hidle Hres), Hget.
      destruct (vr.bPoseIsValid (vr.raw_pose host 3%nat)) eqn:Hvalid.
      * eexists. split; [reflexivity |]. intros host' Hsame.
        rewrite (UpdatePose_resolved host' this Hidle Hres), Hget, Hsame, Hvalid.
        reflexivity.
      * eexists. split; [reflexivity |]. intros host' Hsame.
        rewrite (UpdatePose_resolved host' this Hidle Hres), Hget, Hsame, Hvalid.
        reflexivity.
Qed.

(** *** Calibration started before the index is resolved *)

Lemma UpdatePose_never_resolved host this :
  never_resolved this ->
  ControllerPose.UpdatePose host this = Ok (DisconnectedPose, this).
Proof.
  intros [Hid Hpose]. destruct (calibrating this) eqn:Hc.
  - rewrite (UpdatePose_calibrating host this Hc), Hpose; reflexivity.
  - apply UpdatePose_unresolved; assumption.
Qed.

Lemma StartCalibration_never_resolved host this :
  never_resolved this ->
  exists this',
    ControllerPose.StartCalibration host this = Ok (tt, this')
    /\ never_resolved this'
    /\ calibrating this' = true.
Proof.
  intros Hinv. rewrite StartCalibration_eq, (UpdatePose_never_resolved host this Hinv).
  eexists. split; [reflexivity |]. destruct Hinv as [Hid _].
  repeat split. exact Hid.
Qed.

Lemma step_never_resolved ev this :
  never_resolved this ->
  is_report ev = false ->
  exists r this', step ev this = Ok (r, this') /\ never_resolved this'.
Proof.
  intros Hinv Hev.
  destruct ev as [host [] | data]; try discriminate Hev;
    cbn [step call]; unfold mbind, Method_bind.
  - rewrite (UpdatePose_never_resolved host this Hinv). cbn. eauto.
  - destruct (StartCalibration_never_resolved host this Hinv) as (s & -> & Hs & _).
    cbn. eauto.
  - destruct Hinv as [Hid Hpose].
    rewrite (FinishCalibration_unresolved host this Hid), CancelCalibration_eq. cbn.
    do 2 eexists. split; [reflexivity |]. split; [exact Hid | discriminate].
  - destruct Hinv as [Hid Hpose]. rewrite CancelCalibration_eq. cbn.
    do 2 eexists. split; [reflexivity |]. split; [exact Hid | discriminate].
  - cbn. rewrite set_calibration_same. eauto.
Qed.

Lemma run_never_resolved evs : forall this,
  never_resolved this ->
  forallb (fun ev => negb (is_report ev)) evs = true ->
  exists rs this',
    run evs this = Ok (rs, this') /\ never_resolved this' /\ length rs = length evs.
Proof.
  induction evs as [| ev evs IH]; intros this Hinv Hevs.
  - exists [], this. repeat split; assumption || apply Hinv.
  - cbn [forallb] in Hevs. apply andb_prop in Hevs as [Hev Hevs].
    apply negb_true_iff in Hev.
    destruct (step_never_resolved ev this Hinv Hev) as (r & s & Hstep & Hs).
    destruct (IH s Hs Hevs) as (rs & s' & Hrun & Hs' & Hlen).
    exists (r :: rs), s'. rewrite run_cons, Hstep, Hrun.
    split; [reflexivity |]. split; [exact Hs' |]. cbn. congruence.
Qed.

Lemma last_report_no_report evs : forall id,
  forallb (fun ev => negb (is_report ev)) evs = true ->
  last_report id evs = id.
Proof.
  induction evs as [| [host c | data] evs IH]; intros id Hevs.
  - reflexivity.
  - cbn in Hevs |- *. apply IH, Hevs.
  - discriminate Hevs.
Qed.

(** The two situations in which a device with the sentinel index is
    [never_resolved]: it is idle, or no report was delivered since its
    construction. *)
Lemma never_resolved_intro this :
  ControllerPose.m_shadowControllerId this = vr.k_unTrackedDeviceIndexInvalid ->
  (calibrating this = false
   \/ exists role manufacturer configuration pre rs,
        forallb (fun ev => negb (is_report ev)) pre = true
        /\ run pre (ControllerPose.new role manufacturer configuration) = Ok (rs, this)) ->
  never_resolved this.
Proof.
  intros Hid [Hidle | (role & manufacturer & configuration & pre & rs & Hpre & Hrun)].
  - split; [exact Hid |]. rewrite Hidle. discriminate.
  - set (this0 := ControllerPose.new role manufacturer configuration) in *.
    assert (Hid0 : ControllerPose.m_shadowControllerId this0
                   = vr.k_unTrackedDeviceIndexInvalid).
    { destruct (run_members _ _ _ _ Hrun) as (_ & _ & Hlast).
      rewrite (last_report_no_report pre _ Hpre) in Hlast.
      destruct (ControllerPose.m_controllerDiscoverer this0); congruence. }
    assert (Hinv0 : never_resolved this0).
    { split; [exact Hid0 |]. unfold this0, calibrating, ControllerPose.new. cbn.
      destruct (controllerOverrideEnabled configuration); discriminate. }
    destruct (run_never_resolved pre this0 Hinv0 Hpre) as (rs' & this' & Hrun' & Hinv & _).
    congruence.
Qed.

(** C10: [StartCalibration] called while the shadow index is the invalid
    sentinel, on a device that is idle or that has received no report since
    its construction (whatever calls came before), returns and freezes the
    disconnected pose ([deviceIsConnected] false, result [Uninitialized],
    position and orientation zero); every event sequence that does not end
    the session then runs to completion and each [UpdatePose] call in it
    returns that pose, also after reports delivered during the session. *)
Theorem StartCalibration_unresolved_freezes_disconnected host0 this mid :
  ControllerPose.m_shadowControllerId this = vr.k_unTrackedDeviceIndexInvalid ->
  (calibrating this = false
   \/ exists role manufacturer configuration pre rs,
        forallb (fun ev => negb (is_report ev)) pre = true
        /\ run pre (ControllerPose.new role manufacturer configuration) = Ok (rs, this)) ->
  forallb keeps_session mid = true ->
  exists this1 rs_mid this2,
    ControllerPose.StartCalibration host0 this = Ok (tt, this1)
    /\ calibrating this1 = true
    /\ Calibration.m_maintainPose (ControllerPose.m_calibration this1) = DisconnectedPose
    /\ run mid this1 = Ok (rs_mid, this2)
    /\ poses_all DisconnectedPose mid rs_mid
    /\ calibrating this2 = true
    /\ vr.deviceIsConnected (@DisconnectedPose F _) = false
    /\ vr.result (@DisconnectedPose F _) = vr.TrackingResult_Uninitialized
    /\ vr.vecPosition (@DisconnectedPose F _) = vr.mkDouble3 f_zero f_zero f_zero
    /\ vr.qRotation (@DisconnectedPose F _) = vr.mkHmdQuaternion f_zero f_zero f_zero f_zero.
Proof.
  intros Hid Hstill Hmid.
  pose proof (never_resolved_intro this Hid Hstill) as Hinv.
  destruct (StartCalibration_never_resolved host0 this Hinv) as (this1 & Hstart & Hinv1 & Hc1).
  destruct (run_in_session mid this1 Hc1 Hmid) as (rs_mid & this2 & Hrun & Hcal & Hposes).
  destruct Hinv1 as [_ Hmaintain]. rewrite (Hmaintain Hc1) in Hposes.
  exists this1, rs_mid, this2.
  split; [exact Hstart |]. split; [exact Hc1 |]. split; [exact (Hmaintain Hc1) |].
  split; [exact Hrun |]. split; [exact Hposes |].
  split; [unfold calibrating; rewrite Hcal; exact Hc1 |]. repeat split.
Qed.

End Properties.

(** ** Further properties of the pose code *)
Section PoseProperties.
Context {F : Type} `{FloatOps F} `{RotationOfMatrix F} `{CalibrationDerivation F}.
Implicit Types (host : vr.IVRServerDriverHost F) (this : ControllerPose.t F).
Implicit Types (evs : list (@Event F)) (rs : list (@Return F)).

(** *** Every reported pose is well formed *)

Lemma DisconnectedPose_ok : reported_pose_ok (@DisconnectedPose F _).
Proof.
  unfold reported_pose_ok. cbn. repeat split; auto; discriminate.
Qed.

Lemma UpdatePose_idle_ok host this pose this' :
  calibrating this = false ->
  ControllerPose.UpdatePose host this = Ok (pose, this') ->
  reported_pose_ok pose.
Proof.
  intros Hidle.
  destruct (decide (ControllerPose.m_shadowControllerId this
                    = vr.k_unTrackedDeviceIndexInvalid)) as [Hid | Hid].
  - rewrite (UpdatePose_unresolved host this Hidle Hid). intros [= <- _].
    apply DisconnectedPose_ok.
  - rewrite (UpdatePose_resolved host this Hidle Hid).
    destruct (ControllerPose.GetControllerPose host this) as [[cp s] |]; [| discriminate].
    destruct (vr.bPoseIsValid cp); intros [= <- _];
      unfold reported_pose_ok; cbn; repeat split; auto; discriminate.
Qed.

Lemma UpdatePose_ok host this pose this' :
  session_ok this ->
  ControllerPose.UpdatePose host this = Ok (pose, this') ->
  reported_pose_ok pose.
Proof.
  intros Hsession. destruct (calibrating this) eqn:Hc.
  - rewrite (UpdatePose_calibrating host this Hc). intros [= <- _]. apply Hsession, Hc.
  - apply UpdatePose_idle_ok, Hc.
Qed.

Lemma step_session_ok ev this r this' :
  session_ok this ->
  step ev this = Ok (r, this') ->
  session_ok this'
  /\ match r with RetPose pose => reported_pose_ok pose | _ => True end.
Proof.
  intros Hsession.
  destruct ev as [host [] | data]; cbn [step call]; unfold mbind, Method_bind.
  - destruct (ControllerPose.UpdatePose host this) as [[pose s] |] eqn:Hpose;
      [| discriminate].
    pose proof (UpdatePose_ok _ _ _ _ Hsession Hpose) as Hok.
    apply UpdatePose_state in Hpose. subst s. cbn. intros [= <- <-]. auto.
  - rewrite StartCalibration_eq.
    destruct (ControllerPose.UpdatePose host this) as [[pose s] |] eqn:Hpose;
      [| discriminate].
    pose proof (UpdatePose_ok _ _ _ _ Hsession Hpose) as Hok.
    cbn. intros [= <- <-]. split; [| exact I]. intros _. exact Hok.
  - destruct (decide (ControllerPose.m_shadowControllerId this
                      = vr.k_unTrackedDeviceIndexInvalid)) as [Hid | Hid].
    + rewrite (FinishCalibration_unresolved host this Hid), CancelCalibration_eq.
      cbn. intros [= <- <-]. split; [discriminate | exact I].
    + rewrite (FinishCalibration_resolved host this Hid).
      destruct (ControllerPose.GetControllerPose host this) as [[cp s] |];
        [| discriminate].
      cbn. intros [= <- <-]. split; [discriminate | exact I].
  - rewrite CancelCalibration_eq. cbn. intros [= <- <-]. split; [discriminate | exact I].
  - cbn. intros [= <- <-]. rewrite set_calibration_same. auto.
  - unfold Deliver.
    destruct (ControllerPose.m_controllerDiscoverer this); cbn; intros [= <- <-]; auto.
Qed.

Lemma run_session_ok evs : forall this rs this',
  session_ok this ->
  run evs this = Ok (rs, this') ->
  session_ok this'
  /\ Forall (fun r => match r with RetPose pose => reported_pose_ok pose | _ => True end) rs.
Proof.
  induction evs as [| ev evs IH]; intros this rs this' Hsession.
  - cbn. intros [= <- <-]. auto.
  - rewrite run_cons.
    destruct (step ev this) as [[r s] |] eqn:Hstep; [| discriminate].
    destruct (run evs s) as [[rs' s'] |] eqn:Hrun; [| discriminate].
    intros [= <- <-].
    destruct (step_session_ok _ _ _ _ Hsession Hstep) as [Hs Hr].
    destruct (IH _ _ _ Hs Hrun) as [Hs' Hrs]. auto.
Qed.

(** X1: whatever calls and reports a device has seen since its
    construction, every pose it has returned is well formed: identity frame
    rotations, zero frame translations and accelerations, result
    [Running_OK] or [Uninitialized], [poseIsValid] exactly when the result
    is [Running_OK], and never valid while not connected. *)
Theorem reported_poses_well_formed role manufacturer configuration evs rs this :
  run evs (ControllerPose.new role manufacturer configuration) = Ok (rs, this) ->
  Forall (fun r => match r with RetPose pose => reported_pose_ok pose | _ => True end) rs.
Proof.
  intros Hrun.
  apply (run_session_ok evs (ControllerPose.new role manufacturer configuration) rs this);
    [| exact Hrun].
  unfold session_ok, calibrating, ControllerPose.new. cbn.
  destruct (controllerOverrideEnabled configuration); discriminate.
Qed.

(** *** The stored configuration *)

Lemma step_configuration ev this r this' :
  step ev this = Ok (r, this') ->
  is_finish ev = false ->
  ControllerPose.m_poseConfiguration this' = ControllerPose.m_poseConfiguration this
  /\ ControllerPose.m_thisDeviceManufacturer this'
     = ControllerPose.m_thisDeviceManufacturer this.
Proof.
  destruct ev as [host [] | data]; cbn [step call is_finish]; unfold mbind, Method_bind;
    try discriminate.
  - destruct (ControllerPose.UpdatePose host this) as [[pose s] |] eqn:Hpose;
      [| discriminate].
    apply UpdatePose_state in Hpose. subst s. cbn. intros [= _ <-]. auto.
  - rewrite StartCalibration_eq.
    destruct (ControllerPose.UpdatePose host this) as [[pose s] |]; [| discriminate].
    cbn. intros [= _ <-]. auto.
  - rewrite CancelCalibration_eq. cbn. intros [= _ <-]. auto.
  - cbn. intros [= _ <-]. rewrite set_calibration_same. auto.
  - unfold Deliver.
    destruct (ControllerPose.m_controllerDiscoverer this); cbn; intros [= _ <-]; auto.
Qed.

(** X2: a run without a [FinishCalibration] call leaves the stored
    configuration (and the manufacturer) as it was: frames, reports,
    [StartCalibration] and [CancelCalibration] never write it. *)
Theorem configuration_kept_without_FinishCalibration evs : forall this rs this',
  run evs this = Ok (rs, this') ->
  forallb (fun ev => negb (is_finish ev)) evs = true ->
  ControllerPose.m_poseConfiguration this' = ControllerPose.m_poseConfiguration this
  /\ ControllerPose.m_thisDeviceManufacturer this'
     = ControllerPose.m_thisDeviceManufacturer this.
Proof.
  induction evs as [| ev evs IH]; intros this rs this'.
  - cbn. intros [= _ <-]. auto.
  - rewrite run_cons.
    destruct (step ev this) as [[r s] |] eqn:Hstep; [| discriminate].
    destruct (run evs s) as [[rs' s'] |] eqn:Hrun; [| discriminate].
    intros [= _ <-] Hevs. cbn [forallb] in Hevs. apply andb_prop in Hevs as [Hev Hevs].
    apply negb_true_iff in Hev.
    destruct (step_configuration _ _ _ _ Hstep Hev) as [Hcfg Hman].
    destruct (IH _ _ _ Hrun Hevs) as [Hcfg' Hman']. split; congruence.
Qed.

(** *** Lifetimes that never read outside the array *)

Lemma index_readable_cases (id : N) :
  index_readable id = true ->
  id = vr.k_unTrackedDeviceIndexInvalid \/ id < vr.k_unMaxTrackedDeviceCount.
Proof.
  unfold index_readable. intros Hid. apply orb_prop in Hid as [Hlt | Heq].
  - right. apply N.ltb_lt, Hlt.
  - left. apply N.eqb_eq, Heq.
Qed.

Lemma GetControllerPose_readable host this :
  index_readable (ControllerPose.m_shadowControllerId this) = true ->
  ControllerPose.m_shadowControllerId this <> vr.k_unTrackedDeviceIndexInvalid ->
  ControllerPose.GetControllerPose host this
  = Ok (vr.raw_pose host (N.to_nat (ControllerPose.m_shadowControllerId this)), this).
Proof.
  intros Hid Hres. rewrite GetControllerPose_eq.
  destruct (index_readable_cases _ Hid) as [Hinv | Hlt]; [contradiction |].
  destruct (decide _); [reflexivity | contradiction].
Qed.

Lemma UpdatePose_readable host this :
  index_readable (ControllerPose.m_shadowControllerId this) = true ->
  exists pose, ControllerPose.UpdatePose host this = Ok (pose, this).
Proof.
  intros Hid. destruct (calibrating this) eqn:Hc.
  - rewrite (UpdatePose_calibrating host this Hc). eauto.
  - destruct (decide (ControllerPose.m_shadowControllerId this
                      = vr.k_unTrackedDeviceIndexInvalid)) as [Hinv | Hres].
    + rewrite (UpdatePose_unresolved host this Hc Hinv). eauto.
    + rewrite (UpdatePose_resolved host this Hc Hres),
        (GetControllerPose_readable host this Hid Hres).
      destruct (vr.bPoseIsValid _); eauto.
Qed.

Lemma step_readable ev this :
  index_readable (ControllerPose.m_shadowControllerId this) = true ->
  report_readable ev = true ->
  exists r this',
    step ev this = Ok (r, this')
    /\ index_readable (ControllerPose.m_shadowControllerId this') = true.
Proof.
  intros Hid Hev.
  destruct ev as [host [] | data]; cbn [step call]; unfold mbind, Method_bind.
  - destruct (UpdatePose_readable host this Hid) as [pose ->]. cbn. eauto.
  - rewrite StartCalibration_eq.
    destruct (UpdatePose_readable host this Hid) as [pose ->]. cbn. eauto.
  - destruct (decide (ControllerPose.m_shadowControllerId this
                      = vr.k_unTrackedDeviceIndexInvalid)) as [Hinv | Hres].
    + rewrite (FinishCalibration_unresolved host this Hinv), CancelCalibration_eq.
      cbn. eauto.
    + rewrite (FinishCalibration_resolved host this Hres),
        (GetControllerPose_readable host this Hid Hres). cbn. eauto.
  - rewrite CancelCalibration_eq. cbn. eauto.
  - cbn. rewrite set_calibration_same. eauto.
  - unfold Deliver.
    destruct (ControllerPose.m_controllerDiscoverer this); cbn; eauto.
Qed.

Lemma run_readable evs : forall this,
  index_readable (ControllerPose.m_shadowControllerId this) = true ->
  forallb report_readable evs = true ->
  exists rs this',
    run evs this = Ok (rs, this')
    /\ index_readable (ControllerPose.m_shadowControllerId this') = true
    /\ length rs = length evs.
Proof.
  induction evs as [| ev evs IH]; intros this Hid Hevs.
  - exists [], this. auto.
  - cbn [forallb] in Hevs. apply andb_prop in Hevs as [Hev Hevs].
    destruct (step_readable ev this Hid Hev) as (r & s & Hstep & Hs).
    destruct (IH s Hs Hevs) as (rs & s' & Hrun & Hs' & Hlen).
    exists (r :: rs), s'. rewrite run_cons, Hstep, Hrun. cbn. auto.
Qed.

Ltac racing_unfold :=
  unfold call_during, UpdatePose_interleaved, StartCalibration_interleaved,
    FinishCalibration_interleaved, ControllerPose.CancelCalibration,
    ControllerPose.isCalibrating, ControllerPose.isRightHand, ControllerPose.on_calibration,
    Calibration.isCalibrating, Calibration.GetMaintainPose, Calibration.StartCalibration,
    Calibration.FinishCalibration, Calibration.CancelCalibration,
    mbind, Method_bind, mret, Method_ret, member, assign, undefined.

Lemma Deliver_eq (data : ControllerPipeData) this :
  Deliver data this = Ok (tt, delivered data this).
Proof.
  unfold Deliver, delivered.
  destruct (ControllerPose.m_controllerDiscoverer this); reflexivity.
Qed.

(** With nothing landing during the call the interleaved methods are the
    methods. *)
Lemma UpdatePose_interleaved_quiet host this :
  UpdatePose_interleaved host (mret tt) this = ControllerPose.UpdatePose host this.
Proof.
  unfold UpdatePose_interleaved, ControllerPose.UpdatePose, mbind, Method_bind, mret,
    Method_ret, member, ControllerPose.on_calibration, Calibration.isCalibrating,
    Calibration.GetMaintainPose.
  cbn. destruct (Calibration.m_isCalibrating (ControllerPose.m_calibration this));
    [reflexivity |].
  cbn. destruct (decide _); reflexivity.
Qed.

Lemma FinishCalibration_interleaved_quiet host this :
  FinishCalibration_interleaved host (mret tt) this
  = ControllerPose.FinishCalibration host this.
Proof.
  unfold FinishCalibration_interleaved, ControllerPose.FinishCalibration, mbind,
    Method_bind, mret, Method_ret, member.
  destruct (decide _); reflexivity.
Qed.

Lemma delivered_members (data : ControllerPipeData) this :
  ControllerPose.m_calibration (delivered data this) = ControllerPose.m_calibration this
  /\ ControllerPose.m_controllerDiscoverer (delivered data this)
     = ControllerPose.m_controllerDiscoverer this
  /\ (ControllerPose.m_shadowControllerId (delivered data this)
      = ControllerPose.m_shadowControllerId this
      \/ ControllerPose.m_shadowControllerId (delivered data this)
         = to_uint32 (controllerId data)).
Proof.
  unfold delivered. destruct (ControllerPose.m_controllerDiscoverer this) eqn:Hpipe; cbn; auto.
Qed.

(** After the guard let the call pass, the index read is that of the
    object the callback left. *)
Lemma UpdatePose_interleaved_guarded host (data : ControllerPipeData) this :
  calibrating this = false ->
  ControllerPose.m_shadowControllerId this <> vr.k_unTrackedDeviceIndexInvalid ->
  (ControllerPose.m_shadowControllerId (delivered data this) < vr.k_unMaxTrackedDeviceCount ->
   exists pose,
     UpdatePose_interleaved host (Deliver data) this = Ok (pose, delivered data this))
  /\ (vr.k_unMaxTrackedDeviceCount <= ControllerPose.m_shadowControllerId (delivered data this) ->
      UpdatePose_interleaved host (Deliver data) this = OutOfBounds).
Proof.
  unfold calibrating. intros Hidle Hid. racing_unfold. cbn. rewrite Hidle. cbn.
  rewrite !set_calibration_same.
  destruct (decide _) as [_ | Heq]; [| contradiction].
  rewrite Deliver_eq, GetControllerPose_eq.
  split; intros Hbound; (destruct (decide _) as [Hlt | Hge]; [| try reflexivity; lia]).
  - destruct (vr.bPoseIsValid _); eauto.
  - lia.
Qed.

Lemma UpdatePose_interleaved_unguarded host (data : ControllerPipeData) this :
  calibrating this = true
  \/ ControllerPose.m_shadowControllerId this = vr.k_unTrackedDeviceIndexInvalid ->
  exists pose,
    UpdatePose_interleaved host (Deliver data) this = Ok (pose, delivered data this).
Proof.
  unfold calibrating. intros Hcase. racing_unfold. cbn.
  destruct (Calibration.m_isCalibrating (ControllerPose.m_calibration this)) eqn:Hc; cbn.
  - rewrite !set_calibration_same, Deliver_eq. cbn.
    rewrite set_calibration_same. eauto.
  - destruct Hcase as [Hcase | Hid]; [discriminate |].
    rewrite !set_calibration_same.
    destruct (decide _) as [Hne | _]; [contradiction |].
    rewrite Deliver_eq. eauto.
Qed.

Lemma FinishCalibration_interleaved_guarded host (data : ControllerPipeData) this :
  ControllerPose.m_shadowControllerId this <> vr.k_unTrackedDeviceIndexInvalid ->
  (ControllerPose.m_shadowControllerId (delivered data this) < vr.k_unMaxTrackedDeviceCount ->
   exists this',
     FinishCalibration_interleaved host (Deliver data) this = Ok (tt, this')
     /\ ControllerPose.m_shadowControllerId this'
        = ControllerPose.m_shadowControllerId (delivered data this))
  /\ (vr.k_unMaxTrackedDeviceCount <= ControllerPose.m_shadowControllerId (delivered data this) ->
      FinishCalibration_interleaved host (Deliver data) this = OutOfBounds).
Proof.
  intros Hid. racing_unfold.
  destruct (decide _) as [Heq | _]; [contradiction |].
  rewrite Deliver_eq, GetControllerPose_eq.
  split; intros Hbound; (destruct (decide _) as [Hlt | Hge]; [| try reflexivity; lia]).
  - cbn. eauto.
  - lia.
Qed.

Lemma FinishCalibration_interleaved_unguarded host (data : ControllerPipeData) this :
  ControllerPose.m_shadowControllerId this = vr.k_unTrackedDeviceIndexInvalid ->
  exists this',
    FinishCalibration_interleaved host (Deliver data) this = Ok (tt, this')
    /\ ControllerPose.m_shadowControllerId this'
       = ControllerPose.m_shadowControllerId (delivered data this).
Proof.
  intros Hid. racing_unfold.
  destruct (decide _) as [_ | Hne]; [| contradiction].
  rewrite Deliver_eq. cbn. eauto.
Qed.

(** The index the callback leaves when the report carries an index of the
    array: inside the array if the index before was, readable in any case. *)
Lemma delivered_in_array (data : ControllerPipeData) this :
  to_uint32 (controllerId data) < vr.k_unMaxTrackedDeviceCount ->
  index_readable (ControllerPose.m_shadowControllerId this) = true ->
  index_readable (ControllerPose.m_shadowControllerId (delivered data this)) = true
  /\ (ControllerPose.m_shadowControllerId this <> vr.k_unTrackedDeviceIndexInvalid ->
      ControllerPose.m_shadowControllerId (delivered data this)
      < vr.k_unMaxTrackedDeviceCount).
Proof.
  intros Hdata Hid.
  assert (Hreadable : index_readable (to_uint32 (controllerId data)) = true).
  { unfold index_readable. apply orb_true_intro. left. apply N.ltb_lt, Hdata. }
  destruct (delivered_members data this) as (_ & _ & [-> | ->]).
  - split; [exact Hid |]. intros Hres.
    destruct (index_readable_cases _ Hid) as [Hinv | Hlt]; [contradiction | exact Hlt].
  - split; [exact Hreadable | intros _; exact Hdata].
Qed.

Lemma call_during_readable host c (data : ControllerPipeData) this :
  to_uint32 (controllerId data) < vr.k_unMaxTrackedDeviceCount ->
  index_readable (ControllerPose.m_shadowControllerId this) = true ->
  exists r this',
    call_during host c data this = Ok (r, this')
    /\ index_readable (ControllerPose.m_shadowControllerId this') = true.
Proof.
  intros Hdata Hid.
  destruct (delivered_in_array data this Hdata Hid) as [Hreadable Hlt].
  destruct c; cbn [call_during]; unfold mbind at 1, Method_bind at 1.
  - destruct (calibrating this) eqn:Hc;
      [| destruct (decide (ControllerPose.m_shadowControllerId this
                           = vr.k_unTrackedDeviceIndexInvalid)) as [Hinv | Hres]].
    + destruct (UpdatePose_interleaved_unguarded host data this (or_introl Hc)) as [pose ->].
      cbn. eauto.
    + destruct (UpdatePose_interleaved_unguarded host data this (or_intror Hinv))
        as [pose ->].
      cbn. eauto.
    + destruct (proj1 (UpdatePose_interleaved_guarded host data this Hc Hres) (Hlt Hres))
        as [pose ->].
      cbn. eauto.
  - unfold StartCalibration_interleaved, mbind at 1, Method_bind at 1.
    assert (Hpose : exists pose,
               UpdatePose_interleaved host (Deliver data) this
               = Ok (pose, delivered data this)).
    { destruct (calibrating this) eqn:Hc;
        [| destruct (decide (ControllerPose.m_shadowControllerId this
                             = vr.k_unTrackedDeviceIndexInvalid)) as [Hinv | Hres]].
      - apply UpdatePose_interleaved_unguarded. auto.
      - apply UpdatePose_interleaved_unguarded. auto.
      - apply (proj1 (UpdatePose_interleaved_guarded host data this Hc Hres) (Hlt Hres)). }
    destruct Hpose as [pose ->]. cbn. eauto.
  - destruct (decide (ControllerPose.m_shadowControllerId this
                      = vr.k_unTrackedDeviceIndexInvalid)) as [Hinv | Hres].
    + destruct (FinishCalibration_interleaved_unguarded host data this Hinv)
        as (this' & -> & Hindex).
      cbn. rewrite <- Hindex in Hreadable. eauto.
    + destruct (proj1 (FinishCalibration_interleaved_guarded host data this Hres) (Hlt Hres))
        as (this' & -> & Hindex).
      cbn. rewrite <- Hindex in Hreadable. eauto.
  - rewrite Deliver_eq. cbn. eauto.
  - rewrite Deliver_eq. cbn. eauto.
Qed.

Lemma run_timed_readable (tevs : list (@TimedEvent F)) : forall this,
  index_readable (ControllerPose.m_shadowControllerId this) = true ->
  forallb timed_readable tevs = true ->
  exists rs this',
    run_timed tevs this = Ok (rs, this')
    /\ index_readable (ControllerPose.m_shadowControllerId this') = true
    /\ length rs = length tevs.
Proof.
  induction tevs as [| ev tevs IH]; intros this Hid Hevs.
  - exists [], this. auto.
  - cbn [forallb] in Hevs. apply andb_prop in Hevs as [Hev Hevs].
    assert (Hstep : exists r s,
               step_timed ev this = Ok (r, s)
               /\ index_readable (ControllerPose.m_shadowControllerId s) = true).
    { destruct ev as [ev | host c data]; cbn [step_timed timed_readable] in Hev |- *.
      - apply step_readable; assumption.
      - apply call_during_readable; [apply N.ltb_lt, Hev | exact Hid]. }
    destruct Hstep as (r & s & Hstep & Hs).
    destruct (IH s Hs Hevs) as (rs & s' & Hrun & Hs' & Hlen).
    exists (r :: rs), s'. cbn [run_timed]. unfold mbind, Method_bind.
    rewrite Hstep, Hrun. cbn. auto.
Qed.

(** A timed run whose events all happen apart is a run. *)
Lemma run_timed_apart evs : forall this,
  run_timed (map Apart evs) this = run evs this.
Proof.
  induction evs as [| ev evs IH]; intros this; [reflexivity |].
  cbn [map run_timed run step_timed]. unfold mbind, Method_bind.
  destruct (step ev this) as [[r s] |]; [| reflexivity].
  rewrite IH. reflexivity.
Qed.

(** X3: reports may land between calls or during a call, between the guard
    and the array access.  If the override, when enabled, is below
    [k_unMaxTrackedDeviceCount] or is the invalid sentinel, every report
    between calls carries such an index, and every report that lands during
    a call carries an index below [k_unMaxTrackedDeviceCount], then no
    lifetime reads outside the snapshot array: every event returns.  The
    second condition cannot be dropped: on an idle, resolved device with a
    pipe, a report of the sentinel or of any index at or above the bound
    that lands between the guard and the array access makes [UpdatePose] and
    [FinishCalibration] read out of bounds. *)
Theorem lifetime_in_bounds :
  (forall role manufacturer configuration (tevs : list (@TimedEvent F)),
     (controllerOverrideEnabled configuration = true ->
      index_readable (to_uint32 (controllerIdOverride configuration)) = true) ->
     forallb timed_readable tevs = true ->
     exists rs this,
       run_timed tevs (ControllerPose.new role manufacturer configuration) = Ok (rs, this)
       /\ length rs = length tevs
       /\ index_readable (ControllerPose.m_shadowControllerId this) = true)
  /\ (forall host (data : ControllerPipeData) this,
        calibrating this = false ->
        ControllerPose.m_shadowControllerId this <> vr.k_unTrackedDeviceIndexInvalid ->
        ControllerPose.m_controllerDiscoverer this <> None ->
        vr.k_unMaxTrackedDeviceCount <= to_uint32 (controllerId data) ->
        UpdatePose_interleaved host (Deliver data) this = OutOfBounds
        /\ FinishCalibration_interleaved host (Deliver data) this = OutOfBounds).
Proof.
  split.
  - intros role manufacturer configuration tevs Hoverride Hevs.
    destruct (run_timed_readable tevs (ControllerPose.new role manufacturer configuration))
      as (rs & this & Hrun & Hid & Hlen); [| exact Hevs | eauto].
    unfold ControllerPose.new. cbn.
    destruct (controllerOverrideEnabled configuration); cbn; [auto | reflexivity].
  - intros host data this Hidle Hres Hpipe Hdata.
    assert (Hbound : vr.k_unMaxTrackedDeviceCount
                     <= ControllerPose.m_shadowControllerId (delivered data this)).
    { unfold delivered.
      destruct (ControllerPose.m_controllerDiscoverer this); [exact Hdata | contradiction]. }
    split.
    + apply (proj2 (UpdatePose_interleaved_guarded host data this Hidle Hres) Hbound).
    + apply (proj2 (FinishCalibration_interleaved_guarded host data this Hres) Hbound).
Qed.

(** *** What the status members say *)

(** X4: outside calibration, a pose [UpdatePose] returns is connected
    exactly when the shadow index is not the sentinel, and valid exactly
    when moreover the host's raw pose of that index is valid; its result is
    [Running_OK] in that case and [Uninitialized] otherwise. *)
Theorem UpdatePose_status host this pose this' :
  calibrating this = false ->
  ControllerPose.UpdatePose host this = Ok (pose, this') ->
  let id := ControllerPose.m_shadowControllerId this in
  let tracked :=
    bool_decide (id <> vr.k_unTrackedDeviceIndexInvalid)
    && vr.bPoseIsValid (vr.raw_pose host (N.to_nat id)) in
  vr.deviceIsConnected pose = bool_decide (id <> vr.k_unTrackedDeviceIndexInvalid)
  /\ vr.poseIsValid pose = tracked
  /\ vr.result pose
     = (if tracked then vr.TrackingResult_Running_OK else vr.TrackingResult_Uninitialized).
Proof.
  intros Hidle Hpose id tracked. subst tracked id.
  destruct (decide (ControllerPose.m_shadowControllerId this
                    = vr.k_unTrackedDeviceIndexInvalid)) as [Hinv | Hres].
  - rewrite (UpdatePose_unresolved host this Hidle Hinv) in Hpose.
    injection Hpose as <- _. rewrite bool_decide_eq_false_2 by auto. auto.
  - rewrite (UpdatePose_resolved host this Hidle Hres), GetControllerPose_eq in Hpose.
    rewrite bool_decide_eq_true_2 by exact Hres.
    destruct (decide _); [| discriminate].
    destruct (vr.bPoseIsValid _); injection Hpose as <- _; auto.
Qed.

(** *** Opening and closing a session *)

(** X5: on an idle device, [StartCalibration] followed by
    [CancelCalibration] leaves the device idle with the shadow index, the
    configuration, the role and the discovery pipe it had, and [UpdatePose]
    then answers every host as it would have without the session. *)
Theorem StartCalibration_CancelCalibration_restores host this this1 this2 :
  calibrating this = false ->
  ControllerPose.StartCalibration host this = Ok (tt, this1) ->
  ControllerPose.CancelCalibration this1 = Ok (tt, this2) ->
  calibrating this2 = false
  /\ ControllerPose.m_shadowControllerId this2 = ControllerPose.m_shadowControllerId this
  /\ ControllerPose.m_poseConfiguration this2 = ControllerPose.m_poseConfiguration this
  /\ ControllerPose.m_shadowDeviceOfRole this2 = ControllerPose.m_shadowDeviceOfRole this
  /\ ControllerPose.m_controllerDiscoverer this2 = ControllerPose.m_controllerDiscoverer this
  /\ forall host',
       returned (ControllerPose.UpdatePose host' this2)
       = returned (ControllerPose.UpdatePose host' this).
Proof.
  intros Hidle Hstart Hcancel. rewrite StartCalibration_eq in Hstart.
  destruct (ControllerPose.UpdatePose host this) as [[pose s] |]; [| discriminate].
  injection Hstart as <-. rewrite CancelCalibration_eq in Hcancel.
  injection Hcancel as <-. cbn. repeat split.
  intros host'.
  set (this2 := ControllerPose.set_calibration _ _).
  assert (Hidle2 : calibrating this2 = false) by reflexivity.
  destruct (decide (ControllerPose.m_shadowControllerId this
                    = vr.k_unTrackedDeviceIndexInvalid)) as [Hinv | Hres].
  - rewrite (UpdatePose_unresolved host' this Hidle Hinv),
      (UpdatePose_unresolved host' this2 Hidle2 Hinv). reflexivity.
  - rewrite (UpdatePose_resolved host' this Hidle Hres),
      (UpdatePose_resolved host' this2 Hidle2 Hres), !GetControllerPose_eq.
    change (ControllerPose.m_shadowControllerId this2)
      with (ControllerPose.m_shadowControllerId this).
    change (ControllerPose.m_poseConfiguration this2)
      with (ControllerPose.m_poseConfiguration this).
    destruct (decide _); [| reflexivity].
    destruct (vr.bPoseIsValid _); reflexivity.
Qed.




End PoseProperties.

(** ** Properties of the device provider *)
Section ProviderProperties.
Context {F : Type} `{DeviceConfigurationEnums} `{SettingsSections} `{EulerConversion F}.
Implicit Types (env : DeviceProvider.Environment F) (this : DeviceProvider.t F).
Implicit Types (path dir rest : string).

(** *** The driver's directory *)

Lemma find_last_of_None chars s :
  DeviceProvider.find_last_of chars s = None <->
  forallb (fun c => negb (DeviceProvider.is_one_of chars c)) (list_ascii_of_string s) = true.
Proof.
  induction s as [| c s IH]; cbn.
  - split; reflexivity.
  - destruct (DeviceProvider.find_last_of chars s) as [pos |].
    + split; [discriminate |]. intros Hall. apply andb_prop in Hall as [_ Hs].
      apply IH in Hs. discriminate.
    + destruct (DeviceProvider.is_one_of chars c); cbn.
      * split; discriminate.
      * split; intros _; [apply IH |]; reflexivity.
Qed.

Lemma find_last_of_Some chars s pos :
  DeviceProvider.find_last_of chars s = Some pos ->
  exists a c b,
    s = String.append a (String c b)
    /\ String.length a = pos
    /\ DeviceProvider.is_one_of chars c = true
    /\ DeviceProvider.find_last_of chars b = None.
Proof.
  revert pos. induction s as [| c s IH]; intros pos; cbn; [discriminate |].
  destruct (DeviceProvider.find_last_of chars s) as [pos' |] eqn:Hs.
  - intros [= <-]. destruct (IH pos' eq_refl) as (a & c' & b & -> & Hlen & Hc & Hb).
    exists (String c a), c', b. cbn. rewrite Hlen. auto.
  - destruct (DeviceProvider.is_one_of chars c) eqn:Hc; [| discriminate].
    intros [= <-]. exists EmptyString, c, s. auto.
Qed.

Lemma find_last_of_append chars a c b :
  DeviceProvider.is_one_of chars c = true ->
  DeviceProvider.find_last_of chars b = None ->
  DeviceProvider.find_last_of chars (String.append a (String c b))
  = Some (String.length a).
Proof.
  intros Hc Hb. induction a as [| c' a IH]; cbn.
  - rewrite Hb, Hc. reflexivity.
  - rewrite IH. reflexivity.
Qed.

Lemma substr_0_append a b :
  DeviceProvider.substr_0 (String.append a b) (Some (String.length a)) = a.
Proof.
  induction a as [| c a IH]; cbn.
  - destruct b; reflexivity.
  - rewrite IH. reflexivity.
Qed.

(** X7: when [GetModuleFileName] wrote [path], [GetDriverPath] returns the
    part of [path] before its last slash or backslash, and all of [path]
    when it holds neither; the provider is not changed. *)
Theorem GetDriverPath_splits env this path :
  DeviceProvider.GetModuleFileName env = Some path ->
  exists dir,
    DeviceProvider.GetDriverPath env this = Ok (dir, this)
    /\ ((DeviceProvider.no_separator path = true /\ dir = path)
        \/ exists c rest,
             path = String.append dir (String c rest)
             /\ DeviceProvider.is_one_of "\/" c = true
             /\ DeviceProvider.no_separator rest = true).
Proof.
  intros Hpath. unfold DeviceProvider.GetDriverPath. rewrite Hpath. cbn.
  eexists. split; [reflexivity |].
  destruct (DeviceProvider.find_last_of "\/" path) as [pos |] eqn:Hpos.
  - right. destruct (find_last_of_Some _ _ _ Hpos) as (a & c & b & -> & <- & Hc & Hb).
    exists c, b. rewrite substr_0_append. split; [reflexivity |]. split; [exact Hc |].
    apply find_last_of_None, Hb.
  - left. split; [apply find_last_of_None, Hpos | destruct path; reflexivity].
Qed.

(** X8: [CreateBackgroundProcess] asks for exactly one process, the file
    openglove_overlay.exe in the directory [GetDriverPath] returns (the
    directory of that file is again the driver's directory), and returns
    whether [CreateProcess] started it. *)
Theorem CreateBackgroundProcess_overlay env this path :
  DeviceProvider.GetModuleFileName env = Some path ->
  exists dir this',
    DeviceProvider.GetDriverPath env this = Ok (dir, this)
    /\ let overlay := String.append dir "\openglove_overlay.exe" in
       DeviceProvider.CreateBackgroundProcess env this
       = Ok (DeviceProvider.CreateProcess env overlay, this')
       /\ DeviceProvider.processes_created this'
          = DeviceProvider.processes_created this ++ [overlay]
       /\ DeviceProvider.devices_added this' = DeviceProvider.devices_added this
       /\ DeviceProvider.m_leftHand this' = DeviceProvider.m_leftHand this
       /\ DeviceProvider.m_rightHand this' = DeviceProvider.m_rightHand this
       /\ DeviceProvider.substr_0 overlay (DeviceProvider.find_last_of "\/" overlay) = dir.
Proof.
  intros Hpath.
  unfold DeviceProvider.CreateBackgroundProcess, DeviceProvider.GetDriverPath,
    DeviceProvider.call_CreateProcess, mbind, Method_bind, mret, Method_ret.
  rewrite Hpath.
  set (dir := DeviceProvider.substr_0 path _).
  exists dir. eexists. split; [reflexivity |]. cbn zeta.
  split; [destruct (DeviceProvider.CreateProcess env _); reflexivity |].
  cbn [DeviceProvider.processes_created DeviceProvider.devices_added
       DeviceProvider.m_leftHand DeviceProvider.m_rightHand].
  repeat split.
  change (String.append dir "\openglove_overlay.exe")
    with (String.append dir (String "\" "openglove_overlay.exe")).
  rewrite find_last_of_append by reflexivity. apply substr_0_append.
Qed.

(** *** The configuration read from the settings *)

(** X9: the configuration and the driver of a hand do not depend on the
    settings of the other hand: for a role other than the right hand they
    are the same under any two settings stores that differ only in keys
    starting with right_ or in controller_override_right, and for the right
    hand likewise with left_ and controller_override_left. *)
Theorem GetDeviceConfiguration_hand_isolation env s1 s2 role :
  let skip :=
    if bool_decide (role = vr.TrackedControllerRole_RightHand)
    then DeviceProvider.left_only else DeviceProvider.right_only in
  DeviceProvider.settings_agree skip s1 s2 ->
  DeviceProvider.GetDeviceConfiguration (DeviceProvider.with_settings s1 env) role
  = DeviceProvider.GetDeviceConfiguration (DeviceProvider.with_settings s2 env) role
  /\ forall configuration,
       DeviceProvider.role configuration = role ->
       DeviceProvider.InstantiateDeviceDriver (DeviceProvider.with_settings s1 env) configuration
       = DeviceProvider.InstantiateDeviceDriver (DeviceProvider.with_settings s2 env)
           configuration.
Proof.
  intros skip Hagree.
  assert (HB : forall section key, skip key = false ->
               DeviceProvider.GetBool s1 section key = DeviceProvider.GetBool s2 section key)
    by (intros section key Hkey; apply (Hagree section key Hkey)).
  assert (HI : forall section key, skip key = false ->
               DeviceProvider.GetInt32 s1 section key = DeviceProvider.GetInt32 s2 section key)
    by (intros section key Hkey; apply (Hagree section key Hkey)).
  assert (HF : forall section key, skip key = false ->
               DeviceProvider.GetFloat s1 section key = DeviceProvider.GetFloat s2 section key)
    by (intros section key Hkey; apply (Hagree section key Hkey)).
  assert (HS : forall section key size, skip key = false ->
               DeviceProvider.GetString s1 section key size
               = DeviceProvider.GetString s2 section key size)
    by (intros section key size Hkey; apply (Hagree section key Hkey)).
  clear Hagree. subst skip. split.
  - unfold DeviceProvider.GetDeviceConfiguration.
    cbn [DeviceProvider.VRSettings DeviceProvider.with_settings].
    destruct (bool_decide (role = vr.TrackedControllerRole_RightHand));
      rewrite !HB, !HI, !HF by reflexivity; reflexivity.
  - intros configuration <-. unfold DeviceProvider.InstantiateDeviceDriver.
    cbn [DeviceProvider.VRSettings DeviceProvider.with_settings].
    destruct (bool_decide (DeviceProvider.role configuration
                           = vr.TrackedControllerRole_RightHand));
      rewrite !HI, !HS by reflexivity; reflexivity.
Qed.

(** Every role other than the right hand is configured from the left hand's
    keys: its configuration is the left hand's but for the [role] member. *)
Lemma GetDeviceConfiguration_not_right_is_left env role :
  role <> vr.TrackedControllerRole_RightHand ->
  let configuration := DeviceProvider.GetDeviceConfiguration env role in
  let left :=
    DeviceProvider.GetDeviceConfiguration env vr.TrackedControllerRole_LeftHand in
  configuration
  = DeviceProvider.mkVRDeviceConfiguration role (DeviceProvider.enabled left)
      (DeviceProvider.poseConfiguration left) (DeviceProvider.encodingProtocol left)
      (DeviceProvider.communicationProtocol left) (DeviceProvider.deviceDriver left).
Proof.
  intros Hrole. unfold DeviceProvider.GetDeviceConfiguration.
  rewrite (bool_decide_eq_false_2 _ Hrole). reflexivity.
Qed.

(** X10: [InstantiateDeviceDriver] always builds a driver, for the
    configuration it was given: the knuckles driver exactly when
    [deviceDriver] is [EMULATED_KNUCKLES], over Bluetooth serial exactly when
    [communicationProtocol] is [BTSERIAL], with the alpha encoding exactly
    when [encodingProtocol] is [ALPHA]; every other value, known or not,
    gives the lucidgloves driver, the serial port and the legacy encoding. *)
Theorem InstantiateDeviceDriver_selection env configuration :
  let driver := DeviceProvider.InstantiateDeviceDriver env configuration in
  DeviceProvider.driver_configuration driver = configuration
  /\ DeviceProvider.is_knuckles driver
     = bool_decide (DeviceProvider.deviceDriver configuration = EMULATED_KNUCKLES)
  /\ DeviceProvider.is_btserial (DeviceProvider.driver_communication driver)
     = bool_decide (DeviceProvider.communicationProtocol configuration = BTSERIAL)
  /\ DeviceProvider.is_alpha
       (DeviceProvider.communication_encoding (DeviceProvider.driver_communication driver))
     = bool_decide (DeviceProvider.encodingProtocol configuration = ALPHA).
Proof.
  unfold DeviceProvider.InstantiateDeviceDriver. cbn zeta.
  pose proof LEGACY_ALPHA as Hdistinct.
  repeat split;
    repeat (case_decide || case_bool_decide); cbn; try reflexivity; congruence.
Qed.

(** *** Initialisation and frames *)

Ltac provider_unfold :=
  unfold DeviceProvider.Init, DeviceProvider.RunFrame,
    DeviceProvider.CreateBackgroundProcess, DeviceProvider.GetDriverPath,
    DeviceProvider.call_InitServerDriverContext, DeviceProvider.call_CreateProcess,
    DeviceProvider.TrackedDeviceAdded, DeviceProvider.call_RunFrame,
    mbind, Method_bind, mret, Method_ret, member, assign, undefined.

Lemma Init_cases env this err this' :
  DeviceProvider.Init env this = Ok (err, this') ->
  let r1 := DeviceProvider.InitServerDriverContext env (DeviceProvider.context_inits this) in
  let r2 :=
    DeviceProvider.InitServerDriverContext env (S (DeviceProvider.context_inits this)) in
  let leftConfiguration :=
    DeviceProvider.GetDeviceConfiguration env vr.TrackedControllerRole_LeftHand in
  let rightConfiguration :=
    DeviceProvider.GetDeviceConfiguration env vr.TrackedControllerRole_RightHand in
  let leftHand := DeviceProvider.InstantiateDeviceDriver env leftConfiguration in
  let rightHand := DeviceProvider.InstantiateDeviceDriver env rightConfiguration in
  DeviceProvider.frames_run this' = DeviceProvider.frames_run this
  /\ ((err <> DeviceProvider.VRInitError_None
       /\ DeviceProvider.m_leftHand this' = DeviceProvider.m_leftHand this
       /\ DeviceProvider.m_rightHand this' = DeviceProvider.m_rightHand this
       /\ DeviceProvider.devices_added this' = DeviceProvider.devices_added this
       /\ err = (if decide (r1 <> DeviceProvider.VRInitError_None) then r1
                 else if decide (r2 <> DeviceProvider.VRInitError_None) then r2
                 else DeviceProvider.VRInitError_Init_FileNotFound))
      \/ (err = DeviceProvider.VRInitError_None
          /\ DeviceProvider.m_leftHand this'
             = (if DeviceProvider.enabled leftConfiguration then Some leftHand
                else DeviceProvider.m_leftHand this)
          /\ DeviceProvider.m_rightHand this'
             = (if DeviceProvider.enabled rightConfiguration then Some rightHand
                else DeviceProvider.m_rightHand this)
          /\ DeviceProvider.devices_added this'
             = DeviceProvider.devices_added this
               ++ (if DeviceProvider.enabled leftConfiguration
                   then [DeviceProvider.registration env leftHand] else [])
               ++ (if DeviceProvider.enabled rightConfiguration
                   then [DeviceProvider.registration env rightHand] else [])
          /\ exists overlay,
               DeviceProvider.processes_created this'
               = DeviceProvider.processes_created this ++ [overlay]
               /\ DeviceProvider.CreateProcess env overlay = true)).
Proof.
  provider_unfold. cbn [DeviceProvider.context_inits].
  destruct (decide (DeviceProvider.InitServerDriverContext env _ <> _)) as [Hr1 | Hr1].
  { intros [= <- <-]. cbn. split; [reflexivity |]. left. auto. }
  destruct (decide (DeviceProvider.InitServerDriverContext env _ <> _)) as [Hr2 | Hr2].
  { intros [= <- <-]. cbn. split; [reflexivity |]. left. auto. }
  destruct (DeviceProvider.GetModuleFileName env) as [path |]; [| discriminate].
  destruct (DeviceProvider.CreateProcess env _) eqn:Hcreated; cbn [negb].
  - destruct (DeviceProvider.enabled (DeviceProvider.GetDeviceConfiguration env
                                        vr.TrackedControllerRole_LeftHand));
      destruct (DeviceProvider.enabled (DeviceProvider.GetDeviceConfiguration env
                                          vr.TrackedControllerRole_RightHand));
      intros [= <- <-];
      cbn -[DeviceProvider.GetDeviceConfiguration DeviceProvider.InstantiateDeviceDriver
            String.append DeviceProvider.find_last_of DeviceProvider.substr_0];
      (split; [reflexivity |]); right;
      rewrite <- ?app_assoc, ?app_nil_r; repeat split; eauto.
  - intros [= <- <-]. cbn. split; [reflexivity |]. left.
    repeat split; discriminate.
Qed.

(** X11: an [Init] that returns an error leaves both hands as they were and
    registers no device; the error is the first of: the error of the first
    or of the second [InitServerDriverContext], and [Init_FileNotFound] when
    the overlay process could not be created. *)
Theorem Init_error_registers_nothing env this err this' :
  DeviceProvider.Init env this = Ok (err, this') ->
  err <> DeviceProvider.VRInitError_None ->
  DeviceProvider.m_leftHand this' = DeviceProvider.m_leftHand this
  /\ DeviceProvider.m_rightHand this' = DeviceProvider.m_rightHand this
  /\ DeviceProvider.devices_added this' = DeviceProvider.devices_added this
  /\ DeviceProvider.frames_run this' = DeviceProvider.frames_run this
  /\ let r1 := DeviceProvider.InitServerDriverContext env (DeviceProvider.context_inits this) in
     let r2 :=
       DeviceProvider.InitServerDriverContext env (S (DeviceProvider.context_inits this)) in
     err = (if decide (r1 <> DeviceProvider.VRInitError_None) then r1
            else if decide (r2 <> DeviceProvider.VRInitError_None) then r2
            else DeviceProvider.VRInitError_Init_FileNotFound).
Proof.
  intros Hinit Herr.
  destruct (Init_cases env this err this' Hinit)
    as [Hframes [(_ & Hl & Hr & Hd & He) | (Hnone & _)]]; [| contradiction].
  auto.
Qed.

(** X12: an [Init] that returns [VRInitError_None] has created the overlay
    process and has, for each hand the settings enable, left before right,
    built the driver from that hand's configuration, stored it in the hand's
    member and registered it as a controller under its serial number; a
    hand that is not enabled keeps its member and registers nothing. *)
Theorem Init_registers_enabled_hands env this this' :
  DeviceProvider.Init env this = Ok (DeviceProvider.VRInitError_None, this') ->
  let leftConfiguration :=
    DeviceProvider.GetDeviceConfiguration env vr.TrackedControllerRole_LeftHand in
  let rightConfiguration :=
    DeviceProvider.GetDeviceConfiguration env vr.TrackedControllerRole_RightHand in
  let leftHand := DeviceProvider.InstantiateDeviceDriver env leftConfiguration in
  let rightHand := DeviceProvider.InstantiateDeviceDriver env rightConfiguration in
  DeviceProvider.m_leftHand this'
  = (if DeviceProvider.enabled leftConfiguration then Some leftHand
     else DeviceProvider.m_leftHand this)
  /\ DeviceProvider.m_rightHand this'
     = (if DeviceProvider.enabled rightConfiguration then Some rightHand
        else DeviceProvider.m_rightHand this)
  /\ DeviceProvider.devices_added this'
     = DeviceProvider.devices_added this
       ++ (if DeviceProvider.enabled leftConfiguration
           then [DeviceProvider.registration env leftHand] else [])
       ++ (if DeviceProvider.enabled rightConfiguration
           then [DeviceProvider.registration env rightHand] else [])
  /\ exists overlay,
       DeviceProvider.processes_created this'
       = DeviceProvider.processes_created this ++ [overlay]
       /\ DeviceProvider.CreateProcess env overlay = true.
Proof.
  intros Hinit.
  destruct (Init_cases env this _ this' Hinit)
    as [_ [(Herr & _) | (_ & Hrest)]]; [contradiction | exact Hrest].
Qed.

Lemma RunFrame_eq env this :
  exists this',
    DeviceProvider.RunFrame env this = Ok (tt, this')
    /\ DeviceProvider.frames_run this'
       = DeviceProvider.frames_run this
         ++ List.filter (DeviceProvider.IsActive env) (DeviceProvider.hands this)
    /\ DeviceProvider.devices_added this' = DeviceProvider.devices_added this
    /\ DeviceProvider.m_leftHand this' = DeviceProvider.m_leftHand this
    /\ DeviceProvider.m_rightHand this' = DeviceProvider.m_rightHand this.
Proof.
  destruct this as [[left |] [right |] inits processes devices frames];
    provider_unfold; unfold DeviceProvider.hands; cbn;
    try destruct (DeviceProvider.IsActive env left); cbn;
    try destruct (DeviceProvider.IsActive env right);
    cbn; rewrite <- ?app_assoc, ?app_nil_r;
    (eexists; split; [reflexivity |]); cbn; repeat split.
Qed.

(** X13: after [Init] on a fresh provider, a frame runs exactly the devices
    that were registered and are active, in the order of their
    registration, and runs each once; after a failed [Init] it runs none. *)
Theorem RunFrame_after_Init env err this :
  DeviceProvider.Init env DeviceProvider.new = Ok (err, this) ->
  exists this',
    DeviceProvider.RunFrame env this = Ok (tt, this')
    /\ DeviceProvider.frames_run this'
       = List.filter (DeviceProvider.IsActive env)
           (map snd (DeviceProvider.devices_added this))
    /\ DeviceProvider.devices_added this' = DeviceProvider.devices_added this
    /\ (err <> DeviceProvider.VRInitError_None -> DeviceProvider.frames_run this' = []).
Proof.
  intros Hinit.
  assert (Hhands : DeviceProvider.hands this = map snd (DeviceProvider.devices_added this)
                   /\ DeviceProvider.frames_run this = []
                   /\ (err <> DeviceProvider.VRInitError_None ->
                       DeviceProvider.devices_added this = [])).
  { destruct (Init_cases env _ _ _ Hinit)
      as [Hf [(_ & Hl & Hr & Hd & _) | (Hnone & Hl & Hr & Hd & _)]];
      cbv zeta in Hl, Hr, Hd; unfold DeviceProvider.hands.
    - rewrite Hl, Hr, Hd, Hf. repeat split.
    - destruct (DeviceProvider.enabled _); destruct (DeviceProvider.enabled _);
        rewrite Hl, Hr, Hd, Hf; repeat split; intros Hne; contradiction. }
  destruct Hhands as (Hhands & Hframes & Hempty).
  destruct (RunFrame_eq env this) as (this' & Hrun & Hf & Hd & _).
  exists this'. rewrite Hf, Hframes, Hhands.
  split; [exact Hrun |]. split; [reflexivity |]. split; [exact Hd |].
  intros Herr. rewrite (Hempty Herr). reflexivity.
Qed.

End ProviderProperties.

(** ** The provider's configuration and the pose code together *)
Section ProviderAndPose.
Context {F : Type} `{FloatOps F} `{RotationOfMatrix F} `{CalibrationDerivation F}.
Context `{DeviceConfigurationEnums} `{SettingsSections} `{EulerConversion F}.
Implicit Types (host : vr.IVRServerDriverHost F) (this : ControllerPose.t F).
Implicit Types (evs : list (@Event F)) (rs : list (@Return F)).

(** X14: a pose component constructed from the pose configuration
    [GetDeviceConfiguration] returns: when the one controller_override flag
    is off, the configuration carries the id -1, the shadow index is the
    invalid sentinel, a discovery pipe listens for the role and the first
    frame reports the disconnected pose; when it is on, the shadow index is
    the hand's override id from the settings, converted, and there is no
    pipe. *)
Theorem configured_device_resolution
    (env : DeviceProvider.Environment F) role manufacturer :
  let settings := DeviceProvider.VRSettings env in
  let configuration :=
    DeviceProvider.poseConfiguration (DeviceProvider.GetDeviceConfiguration env role) in
  let device := ControllerPose.new role manufacturer configuration in
  let key :=
    if bool_decide (role = vr.TrackedControllerRole_RightHand)
    then "controller_override_right"%string else "controller_override_left"%string in
  if DeviceProvider.GetBool settings c_poseSettingsSection "controller_override"
  then
    ControllerPose.m_shadowControllerId device
    = to_uint32 (DeviceProvider.GetInt32 settings c_poseSettingsSection key)
    /\ ControllerPose.m_controllerDiscoverer device = None
  else
    controllerIdOverride configuration = (-1)%Z
    /\ ControllerPose.m_shadowControllerId device = vr.k_unTrackedDeviceIndexInvalid
    /\ ControllerPose.m_controllerDiscoverer device = Some (mkControllerDiscoveryPipe role)
    /\ forall host, ControllerPose.UpdatePose host device = Ok (DisconnectedPose, device).
Proof.
  cbn zeta. unfold DeviceProvider.GetDeviceConfiguration, ControllerPose.new.
  cbn [DeviceProvider.poseConfiguration controllerOverrideEnabled controllerIdOverride
       ControllerPose.m_poseConfiguration].
  destruct (DeviceProvider.GetBool _ c_poseSettingsSection "controller_override").
  - split; reflexivity.
  - split; [reflexivity |]. split; [reflexivity |]. split; [reflexivity |].
    intros host. apply UpdatePose_unresolved; reflexivity.
Qed.

(** *** A device that stays disconnected *)

Lemma step_stays_unresolved ev this :
  never_resolved this ->
  ControllerPose.m_controllerDiscoverer this = None \/ is_report ev = false ->
  exists r this',
    step ev this = Ok (r, this')
    /\ never_resolved this'
    /\ ControllerPose.m_controllerDiscoverer this' = ControllerPose.m_controllerDiscoverer this
    /\ match r with RetPose pose => pose = DisconnectedPose | _ => True end.
Proof.
  intros Hinv Hquiet.
  destruct ev as [host [] | data]; cbn [step call]; unfold mbind, Method_bind.
  - rewrite (UpdatePose_never_resolved host this Hinv). cbn. eauto 6.
  - destruct (StartCalibration_never_resolved host this Hinv) as (s & Hstart & Hs & _).
    rewrite Hstart. rewrite StartCalibration_eq, (UpdatePose_never_resolved host this Hinv)
      in Hstart. injection Hstart as <-. cbn. eauto 6.
  - destruct Hinv as [Hid Hpose].
    rewrite (FinishCalibration_unresolved host this Hid), CancelCalibration_eq. cbn.
    do 2 eexists. split; [reflexivity |]. split; [| auto]. split; [exact Hid | discriminate].
  - destruct Hinv as [Hid Hpose]. rewrite CancelCalibration_eq. cbn.
    do 2 eexists. split; [reflexivity |]. split; [| auto]. split; [exact Hid | discriminate].
  - cbn. rewrite set_calibration_same. eauto 6.
  - destruct Hquiet as [Hpipe | Hev]; [| discriminate Hev].
    unfold Deliver. rewrite Hpipe. cbn. eauto 6.
Qed.

Lemma run_stays_unresolved evs : forall this,
  never_resolved this ->
  ControllerPose.m_controllerDiscoverer this = None
  \/ forallb (fun ev => negb (is_report ev)) evs = true ->
  exists rs this',
    run evs this = Ok (rs, this')
    /\ never_resolved this'
    /\ Forall (fun r => match r with RetPose pose => pose = DisconnectedPose | _ => True end) rs.
Proof.
  induction evs as [| ev evs IH]; intros this Hinv Hquiet.
  - exists [], this. auto.
  - assert (Hhead : ControllerPose.m_controllerDiscoverer this = None \/ is_report ev = false).
    { destruct Hquiet as [Hpipe | Hevs]; [auto |]. right.
      cbn [forallb] in Hevs. apply andb_prop in Hevs as [Hev _].
      apply negb_true_iff, Hev. }
    destruct (step_stays_unresolved ev this Hinv Hhead) as (r & s & Hstep & Hs & Hpipe & Hr).
    assert (Htail : ControllerPose.m_controllerDiscoverer s = None
                    \/ forallb (fun ev => negb (is_report ev)) evs = true).
    { destruct Hquiet as [Hnone | Hevs]; [left; congruence |]. right.
      cbn [forallb] in Hevs. apply andb_prop in Hevs as [_ Hevs]. exact Hevs. }
    destruct (IH s Hs Htail) as (rs & s' & Hrun & Hs' & Hrs).
    exists (r :: rs), s'. rewrite run_cons, Hstep, Hrun. auto.
Qed.

(** X15: a device whose shadow index is the invalid sentinel at construction
    never reads the host and reports the disconnected pose at every frame
    and in every session until a report is delivered; one constructed with
    the override enabled (override id -1) has no pipe, ignores reports and
    so reports the disconnected pose for its whole life. *)
Theorem unresolved_device_stays_disconnected role manufacturer configuration evs :
  ControllerPose.m_shadowControllerId (ControllerPose.new role manufacturer configuration)
  = vr.k_unTrackedDeviceIndexInvalid ->
  controllerOverrideEnabled configuration = true
  \/ forallb (fun ev => negb (is_report ev)) evs = true ->
  exists rs this,
    run evs (ControllerPose.new role manufacturer configuration) = Ok (rs, this)
    /\ Forall (fun r => match r with RetPose pose => pose = DisconnectedPose | _ => True end) rs
    /\ ControllerPose.m_shadowControllerId this = vr.k_unTrackedDeviceIndexInvalid.
Proof.
  intros Hid Hquiet.
  destruct (run_stays_unresolved evs (ControllerPose.new role manufacturer configuration))
    as (rs & this & Hrun & [Hid' _] & Hrs).
  - split; [exact Hid |]. unfold calibrating, ControllerPose.new. cbn.
    destruct (controllerOverrideEnabled configuration); discriminate.
  - destruct Hquiet as [Hflag | Hevs]; [left | right; exact Hevs].
    unfold ControllerPose.new. cbn. rewrite Hflag. reflexivity.
  - eauto.
Qed.

End ProviderAndPose.

(** ** The properties on the sample data *)

(** Scenario B of the specification: offset (0.05, 0, 0) and a controller at
    identity orientation and position (1, 2, 3) give position (1.05, 2, 3). *)
Example scenario_B :
  returned (ControllerPose.UpdatePose sample_host (sample_device true 3)) =
  Ok {| vr.poseTimeOffset := (1 # 100)%Q;
        vr.qWorldFromDriverRotation := vr.mkHmdQuaternion 1%Q 0%Q 0%Q 0%Q;
        vr.vecWorldFromDriverTranslation := vr.mkDouble3 0%Q 0%Q 0%Q;
        vr.qDriverFromHeadRotation := vr.mkHmdQuaternion 1%Q 0%Q 0%Q 0%Q;
        vr.vecDriverFromHeadTranslation := vr.mkDouble3 0%Q 0%Q 0%Q;
        vr.vecPosition := vr.mkDouble3 (21 # 20)%Q 2%Q 3%Q;
        vr.vecVelocity := vr.mkDouble3 (1 # 2)%Q 0%Q 0%Q;
        vr.vecAcceleration := vr.mkDouble3 0%Q 0%Q 0%Q;
        vr.qRotation := vr.mkHmdQuaternion 1%Q 0%Q 0%Q 0%Q;
        vr.vecAngularVelocity := vr.mkDouble3 0%Q (1 # 4)%Q 0%Q;
        vr.vecAngularAcceleration := vr.mkDouble3 0%Q 0%Q 0%Q;
        vr.result := vr.TrackingResult_Running_OK;
        vr.poseIsValid := true;
        vr.willDriftInYaw := false;
        vr.shouldApplyHeadModel := false;
        vr.deviceIsConnected := true |}.
Proof. vm_compute. reflexivity. Qed.

(** The model of [MultiplyQuaternion] is the Hamilton product with its left
    argument on the left: [i * j = k] and [j * i = -k]. *)
Example MultiplyQuaternion_i_j :
  MultiplyQuaternion (vr.mkHmdQuaternion 0%Q 1%Q 0%Q 0%Q) (vr.mkHmdQuaternion 0%Q 0%Q 1%Q 0%Q)
  = vr.mkHmdQuaternion 0%Q 0%Q 0%Q 1%Q
  /\ MultiplyQuaternion (vr.mkHmdQuaternion 0%Q 0%Q 1%Q 0%Q) (vr.mkHmdQuaternion 0%Q 1%Q 0%Q 0%Q)
  = vr.mkHmdQuaternion 0%Q 0%Q 0%Q (-1)%Q.
Proof. split; vm_compute; reflexivity. Qed.


Lemma UpdatePose_disconnected_witness :
  returned (ControllerPose.UpdatePose sample_host (sample_device false 0))
  = Ok DisconnectedPose.
Proof.
  rewrite (UpdatePose_disconnected sample_host (sample_device false 0)).
  - reflexivity.
  - reflexivity.
  - reflexivity.
Defined.

Lemma UpdatePose_untracked_witness :
  exists pose,
    ControllerPose.UpdatePose sample_host_lost (sample_device true 3)
    = Ok (pose, sample_device true 3)
    /\ vr.deviceIsConnected pose = true
    /\ vr.poseIsValid pose = false
    /\ vr.result pose = vr.TrackingResult_Uninitialized.
Proof.
  apply (UpdatePose_untracked sample_host_lost (sample_device true 3) sample_untracked).
  - reflexivity.
  - vm_compute. discriminate.
  - vm_compute. reflexivity.
  - reflexivity.
Defined.

(** Scenario D of the specification: no override, then a report of index 3;
    the next [UpdatePose] shadows device 3. *)
Example scenario_D :
  ControllerPose.m_shadowControllerId
    (state_after [DiscoveryReport (mkControllerPipeData 3)] (sample_device false 0)) = 3
  /\ returned (ControllerPose.UpdatePose sample_host
                 (state_after [DiscoveryReport (mkControllerPipeData 3)]
                    (sample_device false 0)))
     = returned (ControllerPose.UpdatePose sample_host (sample_device true 3)).
Proof. split; vm_compute; reflexivity. Qed.

(** An override of -1 is stored as the invalid sentinel. *)
Example override_minus_one :
  ControllerPose.m_shadowControllerId (sample_device true (-1))
  = vr.k_unTrackedDeviceIndexInvalid
  /\ returned (ControllerPose.UpdatePose sample_host (sample_device true (-1)))
     = Ok DisconnectedPose.
Proof. split; vm_compute; reflexivity. Qed.

(** A session opened on the tracked sample device. *)
Definition sample_session : ControllerPose.t Q :=
  state_after [HostCall sample_host CallStartCalibration] (sample_device true 3).

Lemma UpdatePose_frozen_while_calibrating_witness :
  exists captured rs this2,
    ControllerPose.UpdatePose sample_host (sample_device true 3)
    = Ok (captured, sample_device true 3)
    /\ run [HostCall sample_host_lost CallUpdatePose;
            DiscoveryReport (mkControllerPipeData 5);
            HostCall sample_host_lost CallStartCalibration;
            HostCall sample_host_lost CallUpdatePose] sample_session = Ok (rs, this2)
    /\ poses_all captured
         [HostCall sample_host_lost CallUpdatePose;
          DiscoveryReport (mkControllerPipeData 5);
          HostCall sample_host_lost CallStartCalibration;
          HostCall sample_host_lost CallUpdatePose] rs
    /\ calibrating this2 = true
    /\ forall host other,
         ControllerPose.m_calibration other = ControllerPose.m_calibration this2 ->
         ControllerPose.UpdatePose host other = Ok (captured, other).
Proof.
  apply (UpdatePose_frozen_while_calibrating sample_host (sample_device true 3)).
  - vm_compute. reflexivity.
  - reflexivity.
Defined.

Lemma shadow_index_resolution_witness :
  ControllerPose.m_shadowControllerId (sample_device true 3) = 3
  /\ ControllerPose.m_shadowControllerId (sample_device false 0)
     = vr.k_unTrackedDeviceIndexInvalid
  /\ ControllerPose.m_shadowControllerId
       (state_after [HostCall sample_host CallUpdatePose;
                     DiscoveryReport (mkControllerPipeData 5);
                     DiscoveryReport (mkControllerPipeData 3)] (sample_device false 0)) = 3
  /\ returned (ControllerPose.UpdatePose sample_host
                 (state_after [HostCall sample_host CallUpdatePose;
                               DiscoveryReport (mkControllerPipeData 5);
                               DiscoveryReport (mkControllerPipeData 3)]
                    (sample_device false 0)))
     = Ok {| vr.poseTimeOffset := (1 # 100)%Q;
             vr.qWorldFromDriverRotation := vr.mkHmdQuaternion 1%Q 0%Q 0%Q 0%Q;
             vr.vecWorldFromDriverTranslation := vr.mkDouble3 0%Q 0%Q 0%Q;
             vr.qDriverFromHeadRotation := vr.mkHmdQuaternion 1%Q 0%Q 0%Q 0%Q;
             vr.vecDriverFromHeadTranslation := vr.mkDouble3 0%Q 0%Q 0%Q;
             vr.vecPosition := vr.mkDouble3 (21 # 20)%Q 2%Q 3%Q;
             vr.vecVelocity := vr.mkDouble3 (1 # 2)%Q 0%Q 0%Q;
             vr.vecAcceleration := vr.mkDouble3 0%Q 0%Q 0%Q;
             vr.qRotation := vr.mkHmdQuaternion 1%Q 0%Q 0%Q 0%Q;
             vr.vecAngularVelocity := vr.mkDouble3 0%Q (1 # 4)%Q 0%Q;
             vr.vecAngularAcceleration := vr.mkDouble3 0%Q 0%Q 0%Q;
             vr.result := vr.TrackingResult_Running_OK;
             vr.poseIsValid := true;
             vr.willDriftInYaw := false;
             vr.shouldApplyHeadModel := false;
             vr.deviceIsConnected := true |}
  /\ returned (ControllerPose.UpdatePose sample_host_lost
                 (state_after [HostCall sample_host CallUpdatePose;
                               DiscoveryReport (mkControllerPipeData 5);
                               DiscoveryReport (mkControllerPipeData 3)]
                    (sample_device false 0)))
     = Ok (vr.upd_deviceIsConnected (fun _ => true) DisconnectedPose).
Proof.
  split.
  { destruct (proj1 (shadow_index_resolution vr.TrackedControllerRole_RightHand
                       "lucidgloves"%string (sample_config true 3)) eq_refl) as [Hid _].
    exact Hid. }
  destruct (proj2 (shadow_index_resolution vr.TrackedControllerRole_RightHand
                     "lucidgloves"%string (sample_config false 0)) eq_refl)
    as (Hid & _ & Hruns).
  split; [exact Hid |].
  destruct (Hruns [HostCall sample_host CallUpdatePose;
                   DiscoveryReport (mkControllerPipeData 5);
                   DiscoveryReport (mkControllerPipeData 3)]
              [RetPose DisconnectedPose; RetVoid; RetVoid]
              (state_after [HostCall sample_host CallUpdatePose;
                            DiscoveryReport (mkControllerPipeData 5);
                            DiscoveryReport (mkControllerPipeData 3)]
                 (sample_device false 0)))
    as [Hlast Hthree].
  { vm_compute. reflexivity. }
  split; [exact Hlast |].
  split.
  - destruct (Hthree eq_refl sample_host) as [_ Hpose].
    destruct (Hpose eq_refl) as [Hpose' _]. cbv zeta in Hpose'.
    rewrite Hpose'. vm_compute. reflexivity.
  - destruct (Hthree eq_refl sample_host_lost) as [_ Hpose].
    destruct (Hpose eq_refl) as [Hpose' _]. cbv zeta in Hpose'.
    rewrite Hpose'. vm_compute. reflexivity.
Defined.



(** A host that agrees with [sample_host] on device 3 and nowhere else. *)
Definition sample_host_crowded : vr.IVRServerDriverHost Q :=
  {| vr.raw_pose := fun _ => sample_tracked |}.

Lemma UpdatePose_deterministic_witness :
  returned (ControllerPose.UpdatePose sample_host (sample_device true 3))
  = returned (ControllerPose.UpdatePose sample_host_crowded
                (ControllerPose.new vr.TrackedControllerRole_LeftHand "other"%string
                   (sample_config true 3)))
  /\ forall pose this1',
       ControllerPose.UpdatePose sample_host (sample_device true 3) = Ok (pose, this1') ->
       this1' = sample_device true 3
       /\ ControllerPose.UpdatePose sample_host this1' = Ok (pose, this1').
Proof.
  apply (UpdatePose_deterministic sample_host sample_host_crowded (sample_device true 3)
           (ControllerPose.new vr.TrackedControllerRole_LeftHand "other"%string
              (sample_config true 3))); reflexivity.
Defined.

Lemma GetControllerPose_in_bounds_iff_witness :
  ControllerPose.UpdatePose sample_host (sample_device true 64) = OutOfBounds
  /\ ControllerPose.FinishCalibration sample_host (sample_device true 64) = OutOfBounds.
Proof.
  apply (proj2 (proj2 GetControllerPose_in_bounds_iff) sample_host
           vr.TrackedControllerRole_RightHand "lucidgloves"%string (sample_config true 64)).
  - reflexivity.
  - vm_compute. discriminate.
  - vm_compute. discriminate.
Defined.

(** A device never resolved, already in a session opened before. *)
Definition sample_unresolved_session : ControllerPose.t Q :=
  state_after [HostCall sample_host CallUpdatePose; HostCall sample_host CallStartCalibration]
    (sample_device false 0).

Lemma StartCalibration_unresolved_freezes_disconnected_witness :
  exists this1 rs_mid this2,
    ControllerPose.StartCalibration sample_host sample_unresolved_session = Ok (tt, this1)
    /\ Calibration.m_maintainPose (ControllerPose.m_calibration this1) = DisconnectedPose
    /\ run [DiscoveryReport (mkControllerPipeData 3); HostCall sample_host CallUpdatePose] this1
       = Ok (rs_mid, this2)
    /\ poses_all DisconnectedPose
         [DiscoveryReport (mkControllerPipeData 3); HostCall sample_host CallUpdatePose] rs_mid.
Proof.
  destruct (StartCalibration_unresolved_freezes_disconnected sample_host
              sample_unresolved_session
              [DiscoveryReport (mkControllerPipeData 3); HostCall sample_host CallUpdatePose])
    as (this1 & rs_mid & this2 & Hstart & _ & Hpose & Hrun & Hposes & _).
  - reflexivity.
  - right.
    exists vr.TrackedControllerRole_RightHand, "lucidgloves"%string, (sample_config false 0),
      [HostCall sample_host CallUpdatePose; HostCall sample_host CallStartCalibration],
      [RetPose DisconnectedPose; RetVoid].
    split; [reflexivity | vm_compute; reflexivity].
  - reflexivity.
  - exists this1, rs_mid, this2. auto.
Defined.

(** *** The further properties on the sample data *)

(** A lifetime with a frame before and after discovery, a session in which
    the host loses the controller, and a finished calibration. *)
Definition sample_lifetime : list (@Event Q) :=
  [HostCall sample_host CallUpdatePose;
   DiscoveryReport (mkControllerPipeData 3);
   HostCall sample_host CallUpdatePose;
   HostCall sample_host CallStartCalibration;
   HostCall sample_host_lost CallUpdatePose;
   HostCall sample_host CallIsCalibrating;
   HostCall sample_host CallFinishCalibration;
   HostCall sample_host_lost CallUpdatePose].

Lemma reported_poses_well_formed_witness :
  Forall (fun r => match r with RetPose pose => reported_pose_ok pose | _ => True end)
    (match returned (run sample_lifetime (sample_device false 0)) with
     | Ok rs => rs
     | OutOfBounds => []
     end)
  /\ length (match returned (run sample_lifetime (sample_device false 0)) with
             | Ok rs => rs
             | OutOfBounds => []
             end) = 8%nat.
Proof.
  split; [| vm_compute; reflexivity].
  destruct (run sample_lifetime (sample_device false 0)) as [[rs this] |] eqn:Hrun.
  - apply (reported_poses_well_formed vr.TrackedControllerRole_RightHand "lucidgloves"%string
             (sample_config false 0) sample_lifetime rs this Hrun).
  - constructor.
Defined.

Lemma configuration_kept_without_FinishCalibration_witness :
  ControllerPose.m_poseConfiguration
    (state_after [HostCall sample_host CallStartCalibration;
                  DiscoveryReport (mkControllerPipeData 3);
                  HostCall sample_host CallCancelCalibration] (sample_device false 0))
  = sample_config false 0.
Proof.
  apply (configuration_kept_without_FinishCalibration
           [HostCall sample_host CallStartCalibration;
            DiscoveryReport (mkControllerPipeData 3);
            HostCall sample_host CallCancelCalibration]
           (sample_device false 0)
           [RetVoid; RetVoid; RetVoid]).
  - vm_compute. reflexivity.
  - reflexivity.
Defined.

(** A lifetime in which reports land during a frame and during
    [FinishCalibration], and the device is un-resolved again between calls. *)
Definition sample_timed_lifetime : list (@TimedEvent Q) :=
  [Apart (HostCall sample_host CallUpdatePose);
   Apart (DiscoveryReport (mkControllerPipeData 3));
   During sample_host CallUpdatePose (mkControllerPipeData 5);
   During sample_host CallFinishCalibration (mkControllerPipeData 3);
   Apart (DiscoveryReport (mkControllerPipeData (-1)));
   Apart (HostCall sample_host CallUpdatePose)].

Lemma lifetime_in_bounds_witness :
  (exists rs this,
     run_timed sample_timed_lifetime (sample_device false 0) = Ok (rs, this)
     /\ length rs = length sample_timed_lifetime
     /\ index_readable (ControllerPose.m_shadowControllerId this) = true)
  /\ UpdatePose_interleaved sample_host (Deliver (mkControllerPipeData (-1)))
       (state_after [DiscoveryReport (mkControllerPipeData 3)] (sample_device false 0))
     = OutOfBounds
  /\ FinishCalibration_interleaved sample_host (Deliver (mkControllerPipeData (-1)))
       (state_after [DiscoveryReport (mkControllerPipeData 3)] (sample_device false 0))
     = OutOfBounds.
Proof.
  split.
  - apply (proj1 lifetime_in_bounds vr.TrackedControllerRole_RightHand "lucidgloves"%string
             (sample_config false 0) sample_timed_lifetime).
    + discriminate.
    + reflexivity.
  - apply (proj2 lifetime_in_bounds sample_host (mkControllerPipeData (-1))
             (state_after [DiscoveryReport (mkControllerPipeData 3)] (sample_device false 0))).
    + reflexivity.
    + vm_compute. discriminate.
    + vm_compute. discriminate.
    + vm_compute. discriminate.
Defined.

(** The same report delivered between two calls is harmless: the next frame
    reports the disconnected pose. *)
Example sentinel_report_between_calls :
  returned (run [DiscoveryReport (mkControllerPipeData 3);
                 DiscoveryReport (mkControllerPipeData (-1));
                 HostCall sample_host CallUpdatePose] (sample_device false 0))
  = Ok [RetVoid; RetVoid; RetPose DisconnectedPose].
Proof. vm_compute. reflexivity. Qed.

Lemma UpdatePose_status_witness :
  vr.deviceIsConnected (vr.upd_deviceIsConnected (fun _ => true) DisconnectedPose) = true
  /\ vr.poseIsValid (vr.upd_deviceIsConnected (fun _ => true) (@DisconnectedPose Q _)) = false
  /\ vr.result (vr.upd_deviceIsConnected (fun _ => true) (@DisconnectedPose Q _))
     = vr.TrackingResult_Uninitialized.
Proof.
  apply (UpdatePose_status sample_host_lost (sample_device true 3)
           (vr.upd_deviceIsConnected (fun _ => true) DisconnectedPose) (sample_device true 3)).
  - reflexivity.
  - vm_compute. reflexivity.
Defined.

Lemma StartCalibration_CancelCalibration_restores_witness :
  calibrating (state_after [HostCall sample_host CallStartCalibration;
                            HostCall sample_host CallCancelCalibration]
                 (sample_device true 3)) = false
  /\ forall host',
       returned (ControllerPose.UpdatePose host'
                   (state_after [HostCall sample_host CallStartCalibration;
                                 HostCall sample_host CallCancelCalibration]
                      (sample_device true 3)))
       = returned (ControllerPose.UpdatePose host' (sample_device true 3)).
Proof.
  destruct (StartCalibration_CancelCalibration_restores sample_host (sample_device true 3)
              sample_session
              (state_after [HostCall sample_host CallStartCalibration;
                            HostCall sample_host CallCancelCalibration]
                 (sample_device true 3)))
    as (Hidle & _ & _ & _ & _ & Hsame).
  - reflexivity.
  - vm_compute. reflexivity.
  - vm_compute. reflexivity.
  - split; [exact Hidle | exact Hsame].
Defined.



Lemma GetDriverPath_splits_witness :
  exists dir,
    DeviceProvider.GetDriverPath sample_env DeviceProvider.new = Ok (dir, DeviceProvider.new)
    /\ ((DeviceProvider.no_separator "C:\drivers\openglove\bin\win64/driver_openglove.dll" = true
         /\ dir = "C:\drivers\openglove\bin\win64/driver_openglove.dll"%string)
        \/ exists c rest,
             "C:\drivers\openglove\bin\win64/driver_openglove.dll"%string
             = String.append dir (String c rest)
             /\ DeviceProvider.is_one_of "\/" c = true
             /\ DeviceProvider.no_separator rest = true).
Proof.
  apply (GetDriverPath_splits sample_env DeviceProvider.new). reflexivity.
Defined.

(** The driver's directory of the sample surroundings, and a file name
    without any separator. *)
Example GetDriverPath_sample :
  returned (DeviceProvider.GetDriverPath sample_env DeviceProvider.new)
  = Ok "C:\drivers\openglove\bin\win64"%string
  /\ DeviceProvider.substr_0 "driver.dll" (DeviceProvider.find_last_of "\/" "driver.dll")
     = "driver.dll"%string.
Proof. split; vm_compute; reflexivity. Qed.

Lemma CreateBackgroundProcess_overlay_witness :
  exists dir this',
    DeviceProvider.GetDriverPath sample_env DeviceProvider.new = Ok (dir, DeviceProvider.new)
    /\ let overlay := String.append dir "\openglove_overlay.exe" in
       DeviceProvider.CreateBackgroundProcess sample_env DeviceProvider.new
       = Ok (DeviceProvider.CreateProcess sample_env overlay, this')
       /\ DeviceProvider.processes_created this' = [] ++ [overlay]
       /\ DeviceProvider.devices_added this' = []
       /\ DeviceProvider.m_leftHand this' = None
       /\ DeviceProvider.m_rightHand this' = None
       /\ DeviceProvider.substr_0 overlay (DeviceProvider.find_last_of "\/" overlay) = dir.
Proof.
  apply (CreateBackgroundProcess_overlay sample_env DeviceProvider.new
           "C:\drivers\openglove\bin\win64/driver_openglove.dll").
  reflexivity.
Defined.

Lemma GetDeviceConfiguration_hand_isolation_witness :
  DeviceProvider.GetDeviceConfiguration
    (DeviceProvider.with_settings sample_settings sample_env) vr.TrackedControllerRole_LeftHand
  = DeviceProvider.GetDeviceConfiguration
      (DeviceProvider.with_settings sample_settings_right_moved sample_env)
      vr.TrackedControllerRole_LeftHand.
Proof.
  apply (GetDeviceConfiguration_hand_isolation sample_env sample_settings
           sample_settings_right_moved vr.TrackedControllerRole_LeftHand).
  intros section key Hkey. change (DeviceProvider.right_only key = false) in Hkey.
  unfold sample_settings_right_moved.
  cbn [DeviceProvider.GetBool DeviceProvider.GetInt32 DeviceProvider.GetFloat
       DeviceProvider.GetString].
  rewrite Hkey. auto.
Defined.

(** The two stores do differ for the right hand. *)
Example right_hand_moved :
  DeviceProvider.GetDeviceConfiguration
    (DeviceProvider.with_settings sample_settings sample_env) vr.TrackedControllerRole_RightHand
  <> DeviceProvider.GetDeviceConfiguration
       (DeviceProvider.with_settings sample_settings_right_moved sample_env)
       vr.TrackedControllerRole_RightHand.
Proof. vm_compute. discriminate. Qed.

(** A treadmill is configured from the left hand's keys. *)
Example treadmill_configured_as_left :
  DeviceProvider.poseConfiguration
    (DeviceProvider.GetDeviceConfiguration sample_env vr.TrackedControllerRole_Treadmill)
  = DeviceProvider.poseConfiguration
      (DeviceProvider.GetDeviceConfiguration sample_env vr.TrackedControllerRole_LeftHand).
Proof.
  rewrite (GetDeviceConfiguration_not_right_is_left sample_env
             vr.TrackedControllerRole_Treadmill).
  - reflexivity.
  - discriminate.
Qed.

(** With the sample settings: alpha encoding over Bluetooth serial, and the
    unknown driver value 7 gives the lucidgloves driver. *)
Example InstantiateDeviceDriver_sample :
  let driver :=
    DeviceProvider.InstantiateDeviceDriver sample_env
      (DeviceProvider.GetDeviceConfiguration sample_env vr.TrackedControllerRole_LeftHand) in
  DeviceProvider.is_knuckles driver = false
  /\ DeviceProvider.driver_communication driver
     = DeviceProvider.BTSerialCommunicationManager
         (DeviceProvider.mkVRBTSerialConfiguration "communication_btserial/left_name")
         (DeviceProvider.AlphaEncodingManager 4095)
  /\ DeviceProvider.GetSerialNumber sample_env driver
     = "device_lucidgloves/left_serial_number"%string.
Proof. vm_compute. repeat split. Qed.

Lemma Init_error_registers_nothing_witness :
  DeviceProvider.m_leftHand (provider_after_Init sample_env_no_overlay) = None
  /\ DeviceProvider.m_rightHand (provider_after_Init sample_env_no_overlay) = None
  /\ DeviceProvider.devices_added (provider_after_Init sample_env_no_overlay) = []
  /\ DeviceProvider.frames_run (provider_after_Init sample_env_no_overlay) = []
  /\ DeviceProvider.VRInitError_Init_FileNotFound = DeviceProvider.VRInitError_Init_FileNotFound.
Proof.
  apply (Init_error_registers_nothing sample_env_no_overlay DeviceProvider.new
           DeviceProvider.VRInitError_Init_FileNotFound
           (provider_after_Init sample_env_no_overlay)).
  - vm_compute. reflexivity.
  - discriminate.
Defined.

Lemma Init_registers_enabled_hands_witness :
  map (fun entry => fst (fst entry))
    (DeviceProvider.devices_added (provider_after_Init sample_env))
  = ["device_lucidgloves/left_serial_number"%string;
     "device_lucidgloves/right_serial_number"%string]
  /\ DeviceProvider.processes_created (provider_after_Init sample_env)
     = ["C:\drivers\openglove\bin\win64\openglove_overlay.exe"%string].
Proof.
  destruct (Init_registers_enabled_hands sample_env DeviceProvider.new
              (provider_after_Init sample_env)) as (_ & _ & Hdevices & _).
  - vm_compute. reflexivity.
  - rewrite Hdevices. split; vm_compute; reflexivity.
Defined.

Lemma RunFrame_after_Init_witness :
  exists this',
    DeviceProvider.RunFrame sample_env (provider_after_Init sample_env) = Ok (tt, this')
    /\ DeviceProvider.frames_run this'
       = List.filter (DeviceProvider.IsActive sample_env)
           (map snd (DeviceProvider.devices_added (provider_after_Init sample_env)))
    /\ DeviceProvider.devices_added this'
       = DeviceProvider.devices_added (provider_after_Init sample_env).
Proof.
  destruct (RunFrame_after_Init sample_env DeviceProvider.VRInitError_None
              (provider_after_Init sample_env)) as (this' & Hrun & Hframes & Hdevices & _).
  - vm_compute. reflexivity.
  - exists this'. auto.
Defined.

(** In the sample surroundings only the right hand is active: the frame
    runs one device. *)
Example RunFrame_sample :
  match DeviceProvider.RunFrame sample_env (provider_after_Init sample_env) with
  | Ok (_, this') =>
      map (DeviceProvider.GetSerialNumber sample_env) (DeviceProvider.frames_run this')
  | OutOfBounds => []
  end = ["device_lucidgloves/right_serial_number"%string].
Proof. vm_compute. reflexivity. Qed.

(** With the sample settings (no override) the configured device waits for
    discovery. *)
Example configured_device_sample :
  ControllerPose.m_shadowControllerId
    (ControllerPose.new vr.TrackedControllerRole_LeftHand "lucidgloves"
       (DeviceProvider.poseConfiguration
          (DeviceProvider.GetDeviceConfiguration sample_env vr.TrackedControllerRole_LeftHand)))
  = vr.k_unTrackedDeviceIndexInvalid.
Proof. vm_compute. reflexivity. Qed.

Lemma unresolved_device_stays_disconnected_witness :
  exists rs this,
    run [DiscoveryReport (mkControllerPipeData 3);
         HostCall sample_host CallUpdatePose;
         HostCall sample_host CallStartCalibration;
         HostCall sample_host CallUpdatePose] (sample_device true (-1)) = Ok (rs, this)
    /\ Forall (fun r => match r with RetPose pose => pose = DisconnectedPose | _ => True end) rs
    /\ ControllerPose.m_shadowControllerId this = vr.k_unTrackedDeviceIndexInvalid.
Proof.
  apply (unresolved_device_stays_disconnected vr.TrackedControllerRole_RightHand
           "lucidgloves"%string (sample_config true (-1))).
  - reflexivity.
  - left. reflexivity.
Defined.
